(** * Verification of tools/analysis/benchmark_compare.py

    A shallow embedding of the benchmark comparison tool: the loader
    ([load_benchmark_json]), the time extractor ([get_time]), the comparator
    ([compare_benchmarks]), the gate ([check_regression]), the duration
    formatter ([format_time]), the markdown report
    ([generate_markdown_report]), the console summary ([print_summary]) and
    the command line ([main]), followed by the properties of the
    specification that concern them and by further properties of the code.

    Modelling conventions.
    - Python numbers (the durations, the threshold and everything derived
      from them) are exact rationals [Q]: comparisons, subtraction and
      division are those of the source, IEEE rounding, infinities and NaN are
      not modelled.  Equalities between numbers are therefore stated up to
      [Qeq] where the value matters.
    - A Python [str] is a [string] of bytes (UTF-8).  Bytewise lexicographic
      order on UTF-8 agrees with Python's code point order, so [String.le] is
      the order used by [sorted].
    - A [dict] with [str] keys is a [gmap string _]; the [set] of names is a
      [gset string], iterated in the order given by [elements].
    - A function that can raise returns a [result]; an uncaught exception is
      the value [Raise e].
    - The comparator, the gate and the reporter are modelled on the inputs
      their annotations describe: measurement sets are dicts of records and
      the two duration fields of a record hold numbers.  The loader, whose
      specification is about ill-shaped input, is modelled on arbitrary
      parsed JSON, with the exceptions Python raises on each kind of value.
    - Outside these inputs are a name bound to [null] instead of a record
      and an integer beyond the range of a float, whose conversion raises
      [OverflowError].  The further properties are therefore stated on the
      order of the numbers, on the branch and the expression a field holds
      and on the shape of what is printed, and about a function that
      returns or a run that ends by [sys.exit] they say so.
    - [main] is modelled from the return of the argument parser on. *)

From Stdlib Require Import Ascii String QArith Qabs Qround Lqa DecimalString.
From stdpp Require Import gmap strings list sorting.

Set Warnings "-register-all".

(* ===================================================================== *)
(** * Definitions *)
(* ===================================================================== *)

(** ** Python runtime: exceptions, numbers, formatting *)

Module Py.

(** The built-in exceptions the modelled code can raise. *)
Inductive exn := TypeError | KeyError | ValueError.

Inductive result (A : Type) :=
| Ok (a : A)
| Raise (e : exn).
Global Arguments Ok {A} a.
Global Arguments Raise {A} e.

Global Instance result_ret : MRet result := λ A, Ok.
Global Instance result_bind : MBind result := λ A B f m,
  match m with Ok a => f a | Raise e => Raise e end.

Global Instance exn_eq_dec : EqDecision exn.
Proof. solve_decision. Defined.

(** [x < y] on numbers. *)
Definition Qltb (x y : Q) : bool :=
  match (x ?= y)%Q with Lt => true | _ => false end.

(** Truth value of an [Optional[float]]: [None] and zero are false. *)
Definition truthy (t : option Q) : bool :=
  match t with
  | Some q => negb (Qeq_bool q 0)
  | None => false
  end.

(** [str(n)] for a non-negative integer. *)
Definition str_N (n : N) : string := NilZero.string_of_uint (N.to_uint n).
Definition str_nat (n : nat) : string := str_N (N.of_nat n).

(** Rounding to the nearest integer, ties to even, as the [f]
    presentation type does on the exact value. *)
Definition round_half_even (x : Q) : Z :=
  let n := Qfloor x in
  match (x - inject_Z n ?= 1 # 2)%Q with
  | Lt => n
  | Gt => (n + 1)%Z
  | Eq => if Z.even n then n else (n + 1)%Z
  end.

Definition digit_char (d : Z) : ascii := ascii_of_nat (48 + Z.to_nat d).

(** The [prec] low-order decimal digits of [m], most significant first. *)
Fixpoint frac_digits (prec : nat) (m : Z) : string :=
  match prec with
  | O => ""
  | S p => frac_digits p (m / 10) +:+ String (digit_char (m mod 10)) ""
  end.

(** [format(x, ".{prec}f")]: sign, integer part, and [prec] digits after
    the point.  A negative value that rounds to zero keeps its sign. *)
Definition format_f (prec : nat) (x : Q) : string :=
  let scale := (10 ^ Z.of_nat prec)%Z in
  let m := round_half_even (Qabs x * inject_Z scale) in
  let int_part := str_N (Z.to_N (m / scale)) in
  let body :=
    match prec with
    | O => int_part
    | S _ => int_part +:+ "." +:+ frac_digits prec (m mod scale)
    end in
  if Qltb x 0 then "-" +:+ body else body.

(** [sorted(names)] on strings. *)
Definition sorted (names : list string) : list string :=
  merge_sort String.le names.

(** ["\n".join(lines)] *)
Definition join_lines (lines : list string) : string :=
  String.concat (String "010" "") lines.

Definition is_digit (c : ascii) : bool :=
  (48 <=? nat_of_ascii c) && (nat_of_ascii c <=? 57).

Fixpoint all_digits (s : string) : bool :=
  match s with
  | "" => true
  | String c s' => is_digit c && all_digits s'
  end.

(** A decimal numeral with an integer part and exactly [prec] digits
    after the point. *)
Definition fixed_point (prec : nat) (s : string) : Prop :=
  ∃ int_part frac_part,
    s = int_part +:+ "." +:+ frac_part
    ∧ int_part ≠ ""
    ∧ all_digits int_part = true
    ∧ all_digits frac_part = true
    ∧ String.length frac_part = prec.

End Py.

Import Py.

(** ** Parsed JSON values, as produced by [json.load] *)

Inductive json :=
| JNull
| JBool (b : bool)
| JNum (q : Q)
| JStr (s : string)
| JArr (l : list json)
| JObj (m : gmap string json).

(** What [load_benchmark_json] hands back: the dict built by its
    comprehension (keys in insertion order), or its argument itself. *)
Inductive loaded :=
| NewDict (d : list (json * json))
| Same (data : json).

Module Loader.

(** [key in data] for a [str] key. *)
Definition py_in (key : string) (data : json) : result bool :=
  match data with
  | JObj m => Ok (bool_decide (is_Some (m !! key)))
  | JArr l =>
      Ok (existsb (λ x, match x with JStr s => String.eqb s key | _ => false end) l)
  | JStr s => Ok (bool_decide (is_Some (index 0 key s)))
  | JNull | JBool _ | JNum _ => Raise TypeError
  end.

(** [data[key]] for a [str] key: only a dict can be subscripted by it. *)
Definition py_getitem (data : json) (key : string) : result json :=
  match data with
  | JObj m => match m !! key with Some v => Ok v | None => Raise KeyError end
  | _ => Raise TypeError
  end.

Fixpoint chars (s : string) : list json :=
  match s with
  | "" => []
  | String c s' => JStr (String c "") :: chars s'
  end.

(** [for b in v]: a list yields its elements, a dict its keys, a str its
    characters (one per byte here; they are only ever subscripted, which
    raises for any str); the other values are not iterable. *)
Definition py_iter (v : json) : result (list json) :=
  match v with
  | JArr l => Ok l
  | JObj m => Ok (JStr <$> (map_to_list m).*1)
  | JStr s => Ok (chars s)
  | JNull | JBool _ | JNum _ => Raise TypeError
  end.

(** Lists and dicts are unhashable and cannot be dict keys. *)
Definition hashable (k : json) : bool :=
  match k with
  | JArr _ | JObj _ => false
  | _ => true
  end.

Definition as_number (k : json) : option Q :=
  match k with
  | JNum q => Some q
  | JBool b => Some (if b then 1 else 0)%Q
  | _ => None
  end.

(** [k1 == k2] on hashable keys ([True == 1] and [1 == 1.0] in Python). *)
Definition key_eqb (k1 k2 : json) : bool :=
  match k1, k2 with
  | JNull, JNull => true
  | JStr s1, JStr s2 => String.eqb s1 s2
  | _, _ =>
      match as_number k1, as_number k2 with
      | Some q1, Some q2 => Qeq_bool q1 q2
      | _, _ => false
      end
  end.

(** [d[k] = v]: an existing key keeps its place and is given the new
    value, a new key goes last. *)
Fixpoint dict_set (k v : json) (d : list (json * json)) : list (json * json) :=
  match d with
  | [] => [(k, v)]
  | (k', v') :: d' =>
      if key_eqb k' k then (k', v) :: d' else (k', v') :: dict_set k v d'
  end.

(** [{b['name']: b for b in entries}], built left to right. *)
Fixpoint comprehension (entries : list json) (d : list (json * json))
  : result (list (json * json)) :=
  match entries with
  | [] => Ok d
  | b :: rest =>
      k ← py_getitem b "name";
      if hashable k then comprehension rest (dict_set k b d)
      else Raise TypeError
  end.

(** The body of [load_benchmark_json] after [json.load]. *)
Definition load_benchmark_json (data : json) : result loaded :=
  has ← py_in "benchmarks" data;
  if (has : bool) then
    v ← py_getitem data "benchmarks";
    entries ← py_iter v;
    d ← comprehension entries [];
    Ok (NewDict d)
  else Ok (Same data).




End Loader.

(** ** The comparator *)

Inductive ChangeType := IMPROVEMENT | REGRESSION | UNCHANGED | NEW | REMOVED.

Global Instance ChangeType_eq_dec : EqDecision ChangeType.
Proof. solve_decision. Defined.

Record BenchmarkComparison := {
  name : string;
  baseline_time : option Q;
  current_time : option Q;
  change_percent : Q;
  change_type : ChangeType;
  speedup : Q
}.

(** A measurement record as the comparator reads it: the numeric fields of
    the JSON object ([get_time] tests and reads ["cpu_time"] and
    ["real_time"] only, and is annotated to return a float). *)
Abbreviation Benchmark := (gmap string Q).

(** A measurement set: benchmark name to record. *)
Abbreviation Benchmarks := (gmap string (gmap string Q)).

Definition get_time (benchmark : Benchmark) : result Q :=
  match benchmark !! "cpu_time" with
  | Some t => Ok t
  | None =>
      match benchmark !! "real_time" with
      | Some t => Ok t
      | None => Raise ValueError
      end
  end.

(** The three-way classification of a matched pair (the [if]/[elif]/[else]
    on [change_percent] in the loop body). *)
Definition classify (change_percent threshold : Q) : ChangeType :=
  if Qltb threshold change_percent then REGRESSION
  else if Qltb change_percent (- threshold) then IMPROVEMENT
  else UNCHANGED.

(** One iteration of the loop of [compare_benchmarks]. *)
Definition compare_one (baseline current : Benchmarks) (threshold : Q)
    (name : string) : result BenchmarkComparison :=
  match baseline !! name with
  | None =>
      match current !! name with
      | Some current_bench =>
          t ← get_time current_bench;
          Ok {| name := name; baseline_time := None; current_time := Some t;
                change_percent := 0; change_type := NEW; speedup := 1 |}
      | None => Raise TypeError (* get_time(None) *)
      end
  | Some baseline_bench =>
      match current !! name with
      | None =>
          t ← get_time baseline_bench;
          Ok {| name := name; baseline_time := Some t; current_time := None;
                change_percent := 0; change_type := REMOVED; speedup := 1 |}
      | Some current_bench =>
          baseline_time ← get_time baseline_bench;
          current_time ← get_time current_bench;
          let '(change_percent, speedup) :=
            if Qltb 0 baseline_time then
              ((current_time - baseline_time) / baseline_time,
               if Qltb 0 current_time then baseline_time / current_time else 0)%Q
            else (0, 1)%Q in
          Ok {| name := name; baseline_time := Some baseline_time;
                current_time := Some current_time;
                change_percent := change_percent;
                change_type := classify change_percent threshold;
                speedup := speedup |}
      end
  end.

Definition all_names (baseline current : Benchmarks) : gset string :=
  dom baseline ∪ dom current.

(** The loop over an already ordered list of names. *)
Definition compare_names (baseline current : Benchmarks) (threshold : Q)
    (names : list string) : result (list BenchmarkComparison) :=
  mapM (compare_one baseline current threshold) names.

Definition compare_benchmarks (baseline current : Benchmarks) (threshold : Q)
    : result (list BenchmarkComparison) :=
  compare_names baseline current threshold
    (sorted (elements (all_names baseline current))).

(** ** The gate *)

Definition check_regression (comparisons : list BenchmarkComparison)
    (threshold : Q) : bool * list BenchmarkComparison :=
  let regressions := filter (λ c, change_type c = REGRESSION) comparisons in
  (bool_decide (0 < length regressions), regressions).

(** ** The reporter *)

Definition format_time (ns : Q) : string :=
  if Qltb ns 1000 then format_f 2 ns +:+ " ns"
  else if Qltb ns 1000000 then format_f 2 (ns / 1000) +:+ " ¬µs"
  else if Qltb ns 1000000000 then format_f 2 (ns / 1000000) +:+ " ms"
  else format_f 2 (ns / 1000000000) +:+ " s".

(** [format_time(t) if t else "N/A"] *)
Definition time_str (t : option Q) : string :=
  match t with
  | Some q => if truthy t then format_time q else "N/A"
  | None => "N/A"
  end.

Definition status_emoji (t : ChangeType) : string :=
  match t with
  | IMPROVEMENT => "‚úÖ"
  | REGRESSION => "‚ùå"
  | UNCHANGED => "‚ûñ"
  | NEW => "üÜï"
  | REMOVED => "üóëÔ∏è"
  end.

Definition table_header : list string :=
  [ "| Benchmark | Baseline | Current | Change | Speedup |";
    "|-----------|----------|---------|--------|---------|" ].

(** A row of the regressions table ([sign] is "+") or of the improvements
    table ([sign] is empty). *)
Definition detail_row (sign : string) (c : BenchmarkComparison) : string :=
  "| " +:+ name c +:+ " | " +:+ time_str (baseline_time c) +:+ " | "
  +:+ time_str (current_time c) +:+ " | "
  +:+ sign +:+ format_f 1 (change_percent c * 100) +:+ "% | "
  +:+ format_f 2 (speedup c) +:+ "x |".

Definition change_str (c : BenchmarkComparison) : string :=
  match change_type c with
  | NEW | REMOVED => "N/A"
  | _ =>
      (if Qltb 0 (change_percent c) then "+" else "")
      +:+ format_f 1 (change_percent c * 100) +:+ "%"
  end.

(** A row of the "All Results" table. *)
Definition result_row (c : BenchmarkComparison) : string :=
  "| " +:+ name c +:+ " | " +:+ time_str (baseline_time c) +:+ " | "
  +:+ time_str (current_time c) +:+ " | "
  +:+ change_str c +:+ " | " +:+ status_emoji (change_type c) +:+ " |".

Definition of_type (t : ChangeType) (comparisons : list BenchmarkComparison)
    : list BenchmarkComparison :=
  filter (λ c, change_type c = t) comparisons.

Definition report_lines (comparisons : list BenchmarkComparison)
    (baseline_file current_file : string) : list string :=
  let improvements := of_type IMPROVEMENT comparisons in
  let regressions := of_type REGRESSION comparisons in
  let unchanged := of_type UNCHANGED comparisons in
  let new_benchmarks := of_type NEW comparisons in
  let removed := of_type REMOVED comparisons in
  [ "# Benchmark Comparison Report";
    "";
    "- **Baseline**: `" +:+ baseline_file +:+ "`";
    "- **Current**: `" +:+ current_file +:+ "`";
    "";
    "## Summary";
    "" ]
  ++ [ "- ‚úÖ Improvements: " +:+ str_nat (length improvements);
       "- ‚ùå Regressions: " +:+ str_nat (length regressions);
       "- ‚ûñ Unchanged: " +:+ str_nat (length unchanged);
       "- üÜï New: " +:+ str_nat (length new_benchmarks);
       "- üóëÔ∏è Removed: " +:+ str_nat (length removed);
       "" ]
  ++ match regressions with
     | [] => []
     | _ => [ "## ‚ùå Regressions"; "" ] ++ table_header
            ++ (detail_row "+" <$> regressions) ++ [ "" ]
     end
  ++ match improvements with
     | [] => []
     | _ => [ "## ‚úÖ Improvements"; "" ] ++ table_header
            ++ (detail_row "" <$> improvements) ++ [ "" ]
     end
  ++ [ "## All Results";
       "";
       "| Benchmark | Baseline | Current | Change | Status |";
       "|-----------|----------|---------|--------|--------|" ]
  ++ (result_row <$> comparisons).

Definition generate_markdown_report (comparisons : list BenchmarkComparison)
    (baseline_file current_file : string) : string :=
  join_lines (report_lines comparisons baseline_file current_file).

(** [line] is one whole line of [text]: it stands between the start of the
    text or a line feed, and a line feed or the end of the text. *)
Definition occurs_as_line (line text : string) : Prop :=
  ∃ before after,
    text = before +:+ line +:+ after
    ∧ (before = "" ∨ ∃ b, before = b +:+ String "010" "")
    ∧ (after = "" ∨ ∃ a, after = String "010" "" +:+ a).

(** ** The three forms of a comparison built by the comparator *)

Inductive produced (threshold : Q) (c : BenchmarkComparison) : Prop :=
| produced_new t :
    baseline_time c = None → current_time c = Some t →
    change_percent c = 0%Q → speedup c = 1%Q → change_type c = NEW →
    produced threshold c
| produced_removed t :
    baseline_time c = Some t → current_time c = None →
    change_percent c = 0%Q → speedup c = 1%Q → change_type c = REMOVED →
    produced threshold c
| produced_matched b t :
    baseline_time c = Some b → current_time c = Some t →
    change_percent c = (if Qltb 0 b then (t - b) / b else 0)%Q →
    speedup c = (if Qltb 0 b then if Qltb 0 t then b / t else 0 else 1)%Q →
    change_type c = classify (change_percent c) threshold →
    produced threshold c.

(** ** The data-model sentence on [speedup], as the specification words it *)

(** "[baseline_time / current_time] when both present and current > 0;
    [1.0] otherwise". *)
Definition stated_speedup (baseline_time current_time : option Q) : Q :=
  match baseline_time, current_time with
  | Some b, Some c => if Qltb 0 c then (b / c)%Q else 1%Q
  | _, _ => 1%Q
  end.

(** ** Comparisons that differ in the presence of a time only *)

Definition without_baseline (c : BenchmarkComparison) : BenchmarkComparison :=
  {| name := name c; baseline_time := None; current_time := current_time c;
     change_percent := change_percent c; change_type := change_type c;
     speedup := speedup c |}.

Definition without_current (c : BenchmarkComparison) : BenchmarkComparison :=
  {| name := name c; baseline_time := baseline_time c; current_time := None;
     change_percent := change_percent c; change_type := change_type c;
     speedup := speedup c |}.

(** ** Sample measurement sets *)

Module Sample.

Definition record (field : string) (t : Q) : Benchmark := {[ field := t ]}.

(** [bench_a] slows down from 100 to 120, [bench_old] disappears. *)
Definition baseline : Benchmarks :=
  {[ "bench_a" := record "cpu_time" 100; "bench_old" := record "cpu_time" 7 ]}.

(** [bench_new] appears and only has a wall-clock time. *)
Definition current : Benchmarks :=
  {[ "bench_a" := record "cpu_time" 120; "bench_new" := record "real_time" 50 ]}.

Definition threshold : Q := 1 # 10.

Definition bench_a : BenchmarkComparison :=
  {| name := "bench_a"; baseline_time := Some 100%Q; current_time := Some 120%Q;
     change_percent := ((120 - 100) / 100)%Q; change_type := REGRESSION;
     speedup := (100 / 120)%Q |}.

Definition bench_new : BenchmarkComparison :=
  {| name := "bench_new"; baseline_time := None; current_time := Some 50%Q;
     change_percent := 0; change_type := NEW; speedup := 1 |}.

Definition bench_old : BenchmarkComparison :=
  {| name := "bench_old"; baseline_time := Some 7%Q; current_time := None;
     change_percent := 0; change_type := REMOVED; speedup := 1 |}.

Definition comparisons : list BenchmarkComparison :=
  [bench_a; bench_new; bench_old].

(** A benchmark whose current run reports a duration of zero. *)
Definition stalled_baseline : Benchmarks := {[ "x" := record "cpu_time" 100 ]}.
Definition stalled_current : Benchmarks := {[ "x" := record "cpu_time" 0 ]}.

Definition stalled : BenchmarkComparison :=
  {| name := "x"; baseline_time := Some 100%Q; current_time := Some 0%Q;
     change_percent := ((0 - 100) / 100)%Q; change_type := IMPROVEMENT;
     speedup := 0 |}.

(** A set with a record that carries no duration at all. *)
Definition untimed : Benchmarks :=
  {[ "bench_a" := record "cpu_time" 120; "bench_b" := record "iterations" 10 ]}.

End Sample.

(** ** The console summary *)

Module Console.

Definition nl : string := String "010" "".

(** [format_time(t)] on an [Optional[float]]: for [None] the first test,
    [None < 1000], raises. *)
Definition format_time_of (t : option Q) : result string :=
  match t with
  | Some q => Ok (format_time q)
  | None => Raise TypeError
  end.

(** The text of the [print] call of one iteration of [print_summary]. *)
Definition summary_line (c : BenchmarkComparison) : result string :=
  match change_type c with
  | NEW =>
      t ← format_time_of (current_time c);
      Ok ("  üÜï " +:+ name c +:+ ": NEW (" +:+ t +:+ ")")
  | REMOVED => Ok ("  üóëÔ∏è  " +:+ name c +:+ ": REMOVED")
  | _ =>
      let sign := if Qltb 0 (change_percent c) then "+" else "" in
      let emoji :=
        if decide (change_type c = REGRESSION) then "‚ùå"
        else if decide (change_type c = IMPROVEMENT) then "‚úÖ"
        else "‚ûñ" in
      let percent := format_f 1 (change_percent c * 100) in
      b ← format_time_of (baseline_time c);
      t ← format_time_of (current_time c);
      Ok ("  " +:+ emoji +:+ " " +:+ name c +:+ ": " +:+ sign +:+ percent +:+ "% "
          +:+ "(" +:+ b +:+ " ‚Üí " +:+ t +:+ ")")
  end.

(** The loop of [print_summary]: the texts printed, in order, and how the
    loop ended.  What was printed before an exception stays printed. *)
Fixpoint print_each (comparisons : list BenchmarkComparison)
  : list string * result unit :=
  match comparisons with
  | [] => ([], Ok ())
  | c :: rest =>
      match summary_line c with
      | Ok line => let '(out, r) := print_each rest in (line :: out, r)
      | Raise e => ([], Raise e)
      end
  end.

Definition summary_header : string :=
  nl +:+ "=== Benchmark Comparison Summary ===" +:+ nl.

(** The arguments of the successive [print] calls of [print_summary] (each
    is followed by a newline on the stream) and its completion. *)
Definition print_summary (comparisons : list BenchmarkComparison)
  : list string * result unit :=
  let '(out, r) := print_each comparisons in
  match r with
  | Ok _ => (summary_header :: out ++ [""], Ok ())
  | Raise e => (summary_header :: out, Raise e)
  end.

(** When every [format_time] call of [print_summary] has a number. *)
Definition printable (c : BenchmarkComparison) : Prop :=
  match change_type c with
  | NEW => is_Some (current_time c)
  | REMOVED => True
  | _ => is_Some (baseline_time c) ∧ is_Some (current_time c)
  end.

End Console.

(** ** The command line *)

Module Cli.

(** The namespace built by the argument parser. *)
Record Args := {
  baseline : string;
  current : string;
  threshold : Q;
  report : option string;
  fail_on_regression : bool;
  quiet : bool
}.

(** What [load_benchmark_json] does on a path: it returns the measurement
    set of the file, or raises one of the two exceptions [main] catches
    (with the text of the exception), or another one. *)
Inductive load_result :=
| Loaded (set : Benchmarks)
| FileNotFoundError (message : string)
| JSONDecodeError (message : string)
| OtherError (e : exn).

(** How the process ends: [sys.exit(code)], or an exception nobody
    catches. *)
Inductive status :=
| Exit (code : nat)
| Uncaught (e : exn).

(** What a run leaves behind: the texts it prints on the standard output and
    on the error stream, the files it writes (path and content), and its
    end. *)
Record outcome := {
  stdout : list string;
  stderr : list string;
  written : list (string * string);
  exit : status
}.

Definition failed (message : string) : outcome :=
  {| stdout := []; stderr := [message]; written := []; exit := Exit 1 |}.

Definition crashed (out : list string) (e : exn) : outcome :=
  {| stdout := out; stderr := []; written := []; exit := Uncaught e |}.

(** [if args.report]: [None] and the empty string are false. *)
Definition report_path (args : Args) : option string :=
  match report args with
  | Some path => if String.eqb path "" then None else Some path
  | None => None
  end.

(** [main] from the comparison on, both files loaded. *)
Definition run (args : Args) (baseline_set current_set : Benchmarks) : outcome :=
  match compare_benchmarks baseline_set current_set (threshold args) with
  | Raise e => crashed [] e
  | Ok comparisons =>
      let '(summary, printed) :=
        if quiet args then ([], Ok ()) else Console.print_summary comparisons in
      match printed with
      | Raise e => crashed summary e
      | Ok _ =>
          let files :=
            match report_path args with
            | Some path =>
                [(path, generate_markdown_report comparisons
                          (baseline args) (current args))]
            | None => []
            end in
          let saved :=
            match report_path args with
            | Some path =>
                if quiet args then [] else ["Report saved to: " +:+ path]
            | None => []
            end in
          let '(has_regression, regressions) :=
            check_regression comparisons (threshold args) in
          let verdict :=
            if quiet args then []
            else if has_regression then
              [Console.nl +:+ "‚ö†Ô∏è  " +:+ str_nat (length regressions)
               +:+ " regression(s) detected!"]
            else [Console.nl +:+ "‚úÖ No regressions detected."] in
          {| stdout := summary ++ saved ++ verdict;
             stderr := [];
             written := files;
             exit := Exit (if has_regression && fail_on_regression args
                           then 1 else 0) |}
      end
  end.

(** [main] after argument parsing, on a file system seen through [load]. *)
Definition main (load : string → load_result) (args : Args) : outcome :=
  match load (baseline args) with
  | FileNotFoundError message => failed ("Error: " +:+ message)
  | JSONDecodeError message => failed ("Error parsing JSON: " +:+ message)
  | OtherError e => crashed [] e
  | Loaded baseline_set =>
      match load (current args) with
      | FileNotFoundError message => failed ("Error: " +:+ message)
      | JSONDecodeError message => failed ("Error parsing JSON: " +:+ message)
      | OtherError e => crashed [] e
      | Loaded current_set => run args baseline_set current_set
      end
  end.

(** The same arguments with another value of one flag. *)
Definition with_quiet (q : bool) (args : Args) : Args :=
  {| baseline := baseline args; current := current args;
     threshold := threshold args; report := report args;
     fail_on_regression := fail_on_regression args; quiet := q |}.

Definition with_fail (f : bool) (args : Args) : Args :=
  {| baseline := baseline args; current := current args;
     threshold := threshold args; report := report args;
     fail_on_regression := f; quiet := quiet args |}.

End Cli.

(** ** Reading the loader's dict *)

(** The name of an entry of the wrapped form, when it is a string. *)
Definition entry_name (b : json) : option string :=
  match b with
  | JObj r => match r !! "name" with Some (JStr s) => Some s | _ => None end
  | _ => None
  end.

(** [d.get(k)] *)
Fixpoint dict_get (k : json) (d : list (json * json)) : option json :=
  match d with
  | [] => None
  | (k', v) :: d' => if Loader.key_eqb k' k then Some v else dict_get k d'
  end.

(** What the comprehension does with one entry whose name is a string. *)
Definition store_entry (d : list (json * json)) (b : json) : list (json * json) :=
  match entry_name b with
  | Some s => Loader.dict_set (JStr s) b d
  | None => d
  end.

(** ** More sample data *)

Module Demo.

(** A run compared with a faster one: [bench_a] goes from 100 to 50. *)
Definition faster : Benchmarks :=
  {[ "bench_a" := Sample.record "cpu_time" 50 ]}.

(** The baseline reports CPU time, the current run wall-clock time only. *)
Definition cpu_only : Benchmarks :=
  {[ "bench_a" := Sample.record "cpu_time" 100 ]}.
Definition wall_only : Benchmarks :=
  {[ "bench_a" := Sample.record "real_time" 130 ]}.

(** A hand-built "new" comparison without a current time. *)
Definition timeless : BenchmarkComparison :=
  {| name := "ghost"; baseline_time := None; current_time := None;
     change_percent := 0; change_type := NEW; speedup := 1 |}.

(** A new benchmark that ran in no time. *)
Definition instant : BenchmarkComparison :=
  {| name := "noop"; baseline_time := None; current_time := Some 0%Q;
     change_percent := 0; change_type := NEW; speedup := 1 |}.

Definition args (fail quiet : bool) : Cli.Args :=
  {| Cli.baseline := "old.json"; Cli.current := "new.json";
     Cli.threshold := 1 # 10; Cli.report := Some "report.md";
     Cli.fail_on_regression := fail; Cli.quiet := quiet |}.

(** A file system with the two sample sets and a file that is not JSON. *)
Definition load (path : string) : Cli.load_result :=
  if String.eqb path "old.json" then Cli.Loaded Sample.baseline
  else if String.eqb path "new.json" then Cli.Loaded Sample.current
  else if String.eqb path "notes.txt" then Cli.JSONDecodeError "Expecting value"
  else Cli.FileNotFoundError "No such file".

(** Two entries of the wrapped form with the same name. *)
Definition first_x : json := JObj {[ "name" := JStr "x"; "cpu_time" := JNum 1 ]}.
Definition second_x : json := JObj {[ "name" := JStr "x"; "cpu_time" := JNum 2 ]}.

(** A flat file with a benchmark that is called "benchmarks". *)
Definition flat_with_benchmarks : gmap string json :=
  {[ "benchmarks" := JObj {[ "cpu_time" := JNum 5 ]};
     "other" := JObj {[ "cpu_time" := JNum 7 ]} ]}.

End Demo.

(** ** Proof automation *)

(** Two lines of the report that cannot be equal: they differ in their
    first character, or they are two different constants. *)
Ltac other_line H :=
  first [ by (apply (f_equal (get 0)) in H;
              cbn [get append detail_row result_row] in H)
        | by vm_compute in H ].

(** Two readings [H : f c = Some x] and [H' : f c = Some y] of the same
    field: replace [y] by [x]. *)
Ltac same_time H H' :=
  rewrite H in H'; injection H' as <-.

(* ===================================================================== *)
(** * Properties *)
(* ===================================================================== *)

(** ** Numbers and the error monad *)

Lemma Qltb_lt (x y : Q) : Qltb x y = true ↔ (x < y)%Q.
Proof.
  unfold Qltb. rewrite Qlt_alt.
  destruct (x ?= y)%Q; split; congruence.
Qed.

Lemma Qltb_ge (x y : Q) : Qltb x y = false ↔ (y <= x)%Q.
Proof.
  rewrite <- not_true_iff_false, Qltb_lt. split.
  - apply Qnot_lt_le.
  - apply Qle_not_lt.
Qed.

Lemma bind_Ok {A B} (f : A → result B) (m : result A) (b : B) :
  m ≫= f = Ok b ↔ ∃ a, m = Ok a ∧ f a = Ok b.
Proof.
  destruct m as [a|e]; simpl; split.
  - eauto.
  - intros (a' & [= <-] & ?). done.
  - done.
  - intros (a' & [=] & ?).
Qed.

Lemma mapM_Ok {A B} (f : A → result B) (l : list A) (k : list B) :
  mapM f l = Ok k ↔ Forall2 (λ x y, f x = Ok y) l k.
Proof.
  revert k. induction l as [|x l IH]; intros k; simpl.
  - split.
    + intros [= <-]. constructor.
    + intros ->%Forall2_nil_inv_l. done.
  - rewrite bind_Ok. split.
    + intros (y & Hy & Hk). apply bind_Ok in Hk as (k' & Hk' & [= <-]).
      constructor; [done|]. by apply IH.
    + intros (y & k' & Hy & Hk' & ->)%Forall2_cons_inv_l.
      exists y. split; [done|]. apply bind_Ok. exists k'.
      split; [by apply IH | done].
Qed.

(** The loop stops at the first exception: if every iteration either
    succeeds or raises [e], and one raises, the loop raises [e]. *)
Lemma mapM_Raise {A B} (f : A → result B) (e : exn) (l : list A) :
  Forall (λ x, f x = Raise e ∨ ∃ y, f x = Ok y) l →
  Exists (λ x, f x = Raise e) l →
  mapM f l = Raise e.
Proof.
  induction 1 as [|x l Hx Hl IH]; intros Hex.
  - by apply Exists_nil in Hex.
  - simpl. destruct Hx as [->|[y Hy]]; simpl; [done|].
    apply Exists_cons in Hex as [Hx|Hex]; [congruence|].
    by rewrite Hy, IH.
Qed.

Lemma mapM_total {A B} (f : A → result B) (l : list A) :
  Forall (λ x, ∃ y, f x = Ok y) l → ∃ k, mapM f l = Ok k.
Proof.
  induction 1 as [|x l [y Hy] Hl [k IH]]; simpl.
  - by exists [].
  - exists (y :: k). by rewrite Hy, IH.
Qed.

(** ** The time extractor *)

Lemma get_time_Ok (benchmark : Benchmark) (t : Q) :
  get_time benchmark = Ok t ↔
  benchmark !! "cpu_time" = Some t
  ∨ benchmark !! "cpu_time" = None ∧ benchmark !! "real_time" = Some t.
Proof.
  unfold get_time.
  destruct (benchmark !! "cpu_time"), (benchmark !! "real_time");
    intuition congruence.
Qed.

Lemma get_time_Raise (benchmark : Benchmark) (e : exn) :
  get_time benchmark = Raise e ↔
  e = ValueError
  ∧ benchmark !! "cpu_time" = None ∧ benchmark !! "real_time" = None.
Proof.
  unfold get_time.
  destruct (benchmark !! "cpu_time"), (benchmark !! "real_time");
    intuition congruence.
Qed.

Lemma get_time_total (benchmark : Benchmark) :
  is_Some (benchmark !! "cpu_time") ∨ is_Some (benchmark !! "real_time") →
  ∃ t, get_time benchmark = Ok t.
Proof.
  unfold get_time. intros [[t Ht]|[t Ht]]; rewrite ?Ht; eauto.
  destruct (benchmark !! "cpu_time"); eauto.
Qed.

(** ** The order of the names *)

Lemma sorted_Permutation (names : list string) : sorted names ≡ₚ names.
Proof. apply merge_sort_Permutation. Qed.

Lemma sorted_Sorted (names : list string) : Sorted String.le (sorted names).
Proof. apply (Sorted_merge_sort String.le). Qed.

(** [sorted] depends on the elements of its argument only, not on the
    order in which they are handed over. *)
Lemma sorted_order_irrelevant (names names' : list string) :
  names ≡ₚ names' → sorted names = sorted names'.
Proof.
  intros Hperm. apply (Sorted_unique String.le); auto using sorted_Sorted.
  by rewrite !sorted_Permutation.
Qed.

Lemma elem_of_all_names (baseline current : Benchmarks) (n : string) :
  n ∈ all_names baseline current ↔
  is_Some (baseline !! n) ∨ is_Some (current !! n).
Proof. unfold all_names. by rewrite elem_of_union, !elem_of_dom. Qed.

(** ** One iteration of the comparator *)

Section compare_one.
Context (baseline current : Benchmarks) (threshold : Q).

Lemma compare_one_name n c :
  compare_one baseline current threshold n = Ok c → name c = n.
Proof.
  unfold compare_one.
  destruct (baseline !! n) as [rb|], (current !! n) as [rc|]; simpl;
    repeat match goal with
           | |- context [get_time ?r] => destruct (get_time r); simpl
           | |- context [Qltb ?x ?y] => destruct (Qltb x y); simpl
           end; by intros [= <-].
Qed.

Lemma compare_one_produced n c :
  compare_one baseline current threshold n = Ok c → produced threshold c.
Proof.
  unfold compare_one.
  destruct (baseline !! n) as [rb|], (current !! n) as [rc|]; simpl; [| | |done].
  - destruct (get_time rb) as [b|]; simpl; [|done].
    destruct (get_time rc) as [t|]; simpl; [|done].
    destruct (Qltb 0 b) eqn:Hb; intros [= <-];
      eapply (produced_matched _ _ b t); simpl; rewrite ?Hb; done.
  - destruct (get_time rb) as [t|]; simpl; [|done].
    intros [= <-]. by eapply produced_removed.
  - destruct (get_time rc) as [t|]; simpl; [|done].
    intros [= <-]. by eapply produced_new.
Qed.

(** For a name of either set, an iteration yields a comparison or
    raises [ValueError]; no other exception can occur. *)
Lemma compare_one_outcome n :
  is_Some (baseline !! n) ∨ is_Some (current !! n) →
  compare_one baseline current threshold n = Raise ValueError
  ∨ ∃ c, compare_one baseline current threshold n = Ok c.
Proof.
  intros Hn. unfold compare_one.
  destruct (baseline !! n) as [rb|], (current !! n) as [rc|]; simpl.
  - destruct (get_time rb) as [b|e] eqn:Hrb; simpl;
      [|apply get_time_Raise in Hrb as [-> _]; by left].
    destruct (get_time rc) as [t|e] eqn:Hrc; simpl;
      [|apply get_time_Raise in Hrc as [-> _]; by left].
    destruct (Qltb 0 b); eauto.
  - destruct (get_time rb) as [b|e] eqn:Hrb; simpl;
      [|apply get_time_Raise in Hrb as [-> _]; by left].
    eauto.
  - destruct (get_time rc) as [t|e] eqn:Hrc; simpl;
      [|apply get_time_Raise in Hrc as [-> _]; by left].
    eauto.
  - destruct Hn as [[? [=]]|[? [=]]].
Qed.

Lemma compare_one_missing n r :
  baseline !! n = Some r ∨ current !! n = Some r →
  r !! "cpu_time" = None → r !! "real_time" = None →
  compare_one baseline current threshold n = Raise ValueError.
Proof.
  intros Hn Hcpu Hreal.
  assert (get_time r = Raise ValueError) as Hr by by apply get_time_Raise.
  destruct (compare_one_outcome n) as [?|[c Hc]]; [|done|].
  { destruct Hn as [->| ->]; eauto. }
  exfalso. revert Hc. unfold compare_one.
  destruct Hn as [Hn|Hn]; rewrite Hn.
  - rewrite Hr. by destruct (current !! n).
  - destruct (baseline !! n) as [rb|]; [|by rewrite Hr].
    rewrite Hr. by destruct (get_time rb).
Qed.

Lemma compare_one_total n :
  (∀ r, baseline !! n = Some r ∨ current !! n = Some r →
        is_Some (r !! "cpu_time") ∨ is_Some (r !! "real_time")) →
  is_Some (baseline !! n) ∨ is_Some (current !! n) →
  ∃ c, compare_one baseline current threshold n = Ok c.
Proof.
  intros Htimed Hn.
  destruct (compare_one_outcome n Hn) as [Hc|]; [|done].
  exfalso. revert Hc. unfold compare_one.
  destruct (baseline !! n) as [rb|] eqn:Hb, (current !! n) as [rc|] eqn:Hc;
    repeat match goal with
           | |- context [get_time ?r] =>
               let t := fresh "t" in let Ht := fresh "Ht" in
               destruct (get_time_total r) as [t Ht]; [by eauto|];
               rewrite Ht; simpl
           end; try done.
  by destruct (Qltb 0 _).
Qed.

End compare_one.

(** ** The comparator as a whole *)

Lemma compare_benchmarks_Ok baseline current threshold l :
  compare_benchmarks baseline current threshold = Ok l ↔
  Forall2 (λ n c, compare_one baseline current threshold n = Ok c)
    (sorted (elements (all_names baseline current))) l.
Proof. apply mapM_Ok. Qed.

Lemma elem_of_sorted_names baseline current n :
  n ∈ sorted (elements (all_names baseline current)) ↔
  is_Some (baseline !! n) ∨ is_Some (current !! n).
Proof.
  by rewrite sorted_Permutation, elem_of_elements, elem_of_all_names.
Qed.

(** Every comparison of the output comes from one iteration. *)
Lemma compare_benchmarks_elem baseline current threshold l c :
  compare_benchmarks baseline current threshold = Ok l → c ∈ l →
  ∃ n, compare_one baseline current threshold n = Ok c.
Proof.
  intros Hl%compare_benchmarks_Ok [i Hi]%list_elem_of_lookup.
  destruct (Forall2_lookup_r _ _ _ _ _ Hl Hi) as (n & _ & Hn). eauto.
Qed.

Lemma compare_benchmarks_produced baseline current threshold l c :
  compare_benchmarks baseline current threshold = Ok l → c ∈ l →
  produced threshold c.
Proof.
  intros Hl Hc.
  destruct (compare_benchmarks_elem _ _ _ _ _ Hl Hc) as [n Hn].
  by eapply compare_one_produced.
Qed.

Lemma compare_benchmarks_fmap_name baseline current threshold l :
  compare_benchmarks baseline current threshold = Ok l →
  name <$> l = sorted (elements (all_names baseline current)).
Proof.
  intros Hl%compare_benchmarks_Ok.
  induction Hl as [|n c names l Hn _ IH]; [done|].
  rewrite fmap_cons, IH. f_equal. by eapply compare_one_name.
Qed.

(** The comparator returns a list whenever every record carries one of the
    two duration fields. *)
Lemma compare_benchmarks_total baseline current threshold :
  (∀ n r, baseline !! n = Some r ∨ current !! n = Some r →
          is_Some (r !! "cpu_time") ∨ is_Some (r !! "real_time")) →
  ∃ l, compare_benchmarks baseline current threshold = Ok l.
Proof.
  intros Htimed. apply mapM_total, Forall_forall.
  intros n Hn%elem_of_sorted_names. apply compare_one_total; eauto.
Qed.

(** ** Classification *)

Lemma classify_regression change threshold :
  classify change threshold = REGRESSION ↔ (threshold < change)%Q.
Proof.
  unfold classify. rewrite <- Qltb_lt.
  destruct (Qltb threshold change); [done|].
  by destruct (Qltb change (- threshold)).
Qed.

Lemma classify_improvement change threshold :
  (0 <= threshold)%Q →
  classify change threshold = IMPROVEMENT ↔ (change < - threshold)%Q.
Proof.
  intros Hth. unfold classify.
  destruct (Qltb threshold change) eqn:Hreg.
  - apply Qltb_lt in Hreg. split; [done|]. intros Himp. lra.
  - rewrite <- Qltb_lt. by destruct (Qltb change (- threshold)).
Qed.

Lemma classify_improvement_any change threshold :
  classify change threshold = IMPROVEMENT ↔
  (change < - threshold)%Q ∧ (change <= threshold)%Q.
Proof.
  unfold classify. rewrite <- Qltb_lt, <- Qltb_ge.
  destruct (Qltb threshold change); [by intuition|].
  destruct (Qltb change (- threshold)); by intuition.
Qed.

Lemma classify_boundary change threshold :
  (0 <= threshold)%Q → change == threshold →
  classify change threshold = UNCHANGED.
Proof.
  intros Hth Heq. unfold classify.
  destruct (Qltb threshold change) eqn:Hreg.
  { apply Qltb_lt in Hreg. lra. }
  destruct (Qltb change (- threshold)) eqn:Himp; [|done].
  apply Qltb_lt in Himp. lra.
Qed.

Lemma classify_three_way change threshold :
  classify change threshold = IMPROVEMENT
  ∨ classify change threshold = REGRESSION
  ∨ classify change threshold = UNCHANGED.
Proof.
  unfold classify.
  destruct (Qltb threshold change); [by auto|].
  destruct (Qltb change (- threshold)); by auto.
Qed.

(** Below zero the two tests overlap and the first one wins: the
    non-negative threshold of the data model is what keeps them apart. *)
Remark classify_negative_threshold :
  (0 < - (-1))%Q ∧ classify 0 (-1) = REGRESSION.
Proof. split; [lra|reflexivity]. Qed.

(** ** Claims on the comparator *)

(** C1 (as stated): "[speedup] equals [baseline_time / current_time] when
    both times are present and [current_time > 0], and [1.0] in every other
    case."  It fails for a matched benchmark whose current time is zero:
    from 100 to 0 the comparator stores a speedup of [0], not [1.0]. *)
Lemma speedup_not_as_stated :
  compare_benchmarks Sample.stalled_baseline Sample.stalled_current
    Sample.threshold = Ok [Sample.stalled]
  ∧ baseline_time Sample.stalled = Some 100%Q
  ∧ current_time Sample.stalled = Some 0%Q
  ∧ speedup Sample.stalled == 0
  ∧ ¬ speedup Sample.stalled
      == stated_speedup (baseline_time Sample.stalled)
           (current_time Sample.stalled).
Proof.
  split; [vm_compute; reflexivity|].
  repeat split; try reflexivity.
  vm_compute. discriminate.
Qed.

(** C1 (amended): for every comparison of the output, [speedup] is
    [baseline_time / current_time] when both times are present and both are
    positive, [0] when both are present, the baseline is positive and the
    current time is not, and [1] otherwise: when the baseline is not
    positive, and in the "new" and "removed" cases. *)
Theorem speedup_by_cases baseline current threshold l c :
  compare_benchmarks baseline current threshold = Ok l → c ∈ l →
  (baseline_time c = None ∨ current_time c = None → speedup c = 1%Q)
  ∧ (∀ b t, baseline_time c = Some b → current_time c = Some t →
       ((0 < b)%Q → (0 < t)%Q → speedup c = (b / t)%Q)
       ∧ ((0 < b)%Q → (t <= 0)%Q → speedup c = 0%Q)
       ∧ ((b <= 0)%Q → speedup c = 1%Q)).
Proof.
  intros Hl Hc.
  destruct (compare_benchmarks_produced _ _ _ _ _ Hl Hc)
    as [t Hb Ht _ Hs _|t Hb Ht _ Hs _|b t Hb Ht _ Hs _].
  - split; [done|]. intros; congruence.
  - split; [done|]. intros; congruence.
  - split; [intros [?|?]; congruence|].
    intros b' t' Hb' Ht'. same_time Hb Hb'. same_time Ht Ht'.
    rewrite Hs. repeat split.
    + intros ->%Qltb_lt ->%Qltb_lt. done.
    + intros ->%Qltb_lt ->%Qltb_ge. done.
    + intros ->%Qltb_ge. done.
Qed.

Lemma speedup_by_cases_witness :
  compare_benchmarks Sample.baseline Sample.current Sample.threshold
    = Ok Sample.comparisons
  ∧ Sample.bench_a ∈ Sample.comparisons
  ∧ (∀ b t, Some 100%Q = Some b → Some 120%Q = Some t →
       ((0 < b)%Q → (0 < t)%Q → (100 / 120)%Q = (b / t)%Q)
       ∧ ((0 < b)%Q → (t <= 0)%Q → (100 / 120)%Q = 0%Q)
       ∧ ((b <= 0)%Q → (100 / 120)%Q = 1%Q)).
Proof.
  assert (compare_benchmarks Sample.baseline Sample.current Sample.threshold
          = Ok Sample.comparisons) as Hl by (vm_compute; reflexivity).
  assert (Sample.bench_a ∈ Sample.comparisons) as Hc
    by apply list_elem_of_here.
  split; [exact Hl|]. split; [exact Hc|].
  exact (proj2 (speedup_by_cases _ _ _ _ _ Hl Hc)).
Defined.

(** C6: for every comparison of the output, [change_percent] is
    [(current_time - baseline_time) / baseline_time] when both times are
    present and the baseline is positive, and [0] when the baseline is zero
    or when either time is absent. *)
Theorem change_percent_formula baseline current threshold l c :
  compare_benchmarks baseline current threshold = Ok l → c ∈ l →
  (∀ b t, baseline_time c = Some b → current_time c = Some t → (0 < b)%Q →
     change_percent c = ((t - b) / b)%Q)
  ∧ (∀ b, baseline_time c = Some b → b == 0 → change_percent c = 0%Q)
  ∧ (baseline_time c = None ∨ current_time c = None → change_percent c = 0%Q).
Proof.
  intros Hl Hc.
  destruct (compare_benchmarks_produced _ _ _ _ _ Hl Hc)
    as [t Hb Ht Hp _ _|t Hb Ht Hp _ _|b t Hb Ht Hp _ _].
  - repeat split; [|done..]. intros; congruence.
  - repeat split; [|done..]. intros; congruence.
  - repeat split.
    + intros b' t' Hb' Ht' Hpos%Qltb_lt. same_time Hb Hb'. same_time Ht Ht'.
      by rewrite Hp, Hpos.
    + intros b' Hb' Hzero. same_time Hb Hb'.
      assert (Qltb 0 b = false) as Hneg by (apply Qltb_ge; lra).
      by rewrite Hp, Hneg.
    + intros [?|?]; congruence.
Qed.

Lemma change_percent_formula_witness :
  compare_benchmarks Sample.baseline Sample.current Sample.threshold
    = Ok Sample.comparisons
  ∧ Sample.bench_a ∈ Sample.comparisons
  ∧ (∀ b t, Some 100%Q = Some b → Some 120%Q = Some t → (0 < b)%Q →
       ((120 - 100) / 100)%Q = ((t - b) / b)%Q).
Proof.
  assert (compare_benchmarks Sample.baseline Sample.current Sample.threshold
          = Ok Sample.comparisons) as Hl by (vm_compute; reflexivity).
  assert (Sample.bench_a ∈ Sample.comparisons) as Hc
    by apply list_elem_of_here.
  split; [exact Hl|]. split; [exact Hc|].
  exact (proj1 (change_percent_formula _ _ _ _ _ Hl Hc)).
Defined.

(** C2: every comparison of the output with both times present is given
    exactly one of improvement, regression, unchanged (three distinct
    constructors); it is a regression exactly when
    [change_percent > threshold]; it is an improvement exactly when
    [change_percent < -threshold] and it is not a regression, which, for the
    non-negative threshold of the data model, is exactly when
    [change_percent < -threshold]; there a change equal to the threshold is
    unchanged. *)
Theorem classification_partition baseline current threshold l c b t :
  compare_benchmarks baseline current threshold = Ok l → c ∈ l →
  baseline_time c = Some b → current_time c = Some t →
  (change_type c = IMPROVEMENT ∨ change_type c = REGRESSION
   ∨ change_type c = UNCHANGED)
  ∧ (change_type c = REGRESSION ↔ (threshold < change_percent c)%Q)
  ∧ (change_type c = IMPROVEMENT ↔
       (change_percent c < - threshold)%Q ∧ (change_percent c <= threshold)%Q)
  ∧ ((0 <= threshold)%Q →
       (change_type c = IMPROVEMENT ↔ (change_percent c < - threshold)%Q)
       ∧ (change_percent c == threshold → change_type c = UNCHANGED)).
Proof.
  intros Hl Hc Hb Ht.
  destruct (compare_benchmarks_produced _ _ _ _ _ Hl Hc)
    as [? Hb' _ _ _ _|? _ Ht' _ _ _|? ? _ _ _ _ Hty]; [congruence..|].
  rewrite Hty. split; [apply classify_three_way|].
  split; [apply classify_regression|].
  split; [apply classify_improvement_any|].
  intros Hth. split.
  - by apply classify_improvement.
  - by apply classify_boundary.
Qed.

Lemma classification_partition_witness :
  compare_benchmarks Sample.baseline Sample.current Sample.threshold
    = Ok Sample.comparisons
  ∧ Sample.bench_a ∈ Sample.comparisons
  ∧ (0 <= Sample.threshold)%Q
  ∧ (REGRESSION = REGRESSION ↔ (Sample.threshold < (120 - 100) / 100)%Q)
  ∧ (REGRESSION = IMPROVEMENT ↔ ((120 - 100) / 100 < - Sample.threshold)%Q).
Proof.
  assert (compare_benchmarks Sample.baseline Sample.current Sample.threshold
          = Ok Sample.comparisons) as Hl by (vm_compute; reflexivity).
  assert (Sample.bench_a ∈ Sample.comparisons) as Hc
    by apply list_elem_of_here.
  assert (0 <= Sample.threshold)%Q as Hth by (by vm_compute).
  split; [exact Hl|]. split; [exact Hc|]. split; [exact Hth|].
  destruct (classification_partition _ _ _ _ _ 100%Q 120%Q
              Hl Hc eq_refl eq_refl) as (_ & Hreg & _ & Hrest).
  split; [exact Hreg|]. exact (proj1 (Hrest Hth)).
Defined.

(** C3: the output has exactly one comparison per name of the union of the
    two key sets, as many comparisons as the union has names, in ascending
    lexicographic order of name; the order in which the names of the union
    are enumerated before sorting does not change it. *)
Theorem compare_benchmarks_names baseline current threshold l :
  compare_benchmarks baseline current threshold = Ok l →
  (∀ n, n ∈ name <$> l ↔ n ∈ dom baseline ∪ dom current)
  ∧ NoDup (name <$> l)
  ∧ length l = size (dom baseline ∪ dom current)
  ∧ Sorted String.le (name <$> l)
  ∧ (∀ order, order ≡ₚ elements (dom baseline ∪ dom current) →
       compare_names baseline current threshold (sorted order) = Ok l).
Proof.
  intros Hl. pose proof (compare_benchmarks_fmap_name _ _ _ _ Hl) as Hnames.
  unfold all_names in Hnames. repeat split.
  - rewrite Hnames, sorted_Permutation. by apply elem_of_elements.
  - rewrite Hnames, sorted_Permutation. by apply elem_of_elements.
  - rewrite Hnames, sorted_Permutation. apply NoDup_elements.
  - rewrite <- (length_fmap name), Hnames, sorted_Permutation. done.
  - rewrite Hnames. apply sorted_Sorted.
  - intros order Horder. by rewrite (sorted_order_irrelevant _ _ Horder).
Qed.

Lemma compare_benchmarks_names_witness :
  compare_benchmarks Sample.baseline Sample.current Sample.threshold
    = Ok Sample.comparisons
  ∧ name <$> Sample.comparisons = ["bench_a"; "bench_new"; "bench_old"]
  ∧ length Sample.comparisons
    = size (dom Sample.baseline ∪ dom Sample.current)
  ∧ Sorted String.le (name <$> Sample.comparisons).
Proof.
  assert (compare_benchmarks Sample.baseline Sample.current Sample.threshold
          = Ok Sample.comparisons) as Hl by (vm_compute; reflexivity).
  split; [exact Hl|]. split; [reflexivity|].
  destruct (compare_benchmarks_names _ _ _ _ Hl) as (_ & _ & Hlen & Hsorted & _).
  exact (conj Hlen Hsorted).
Defined.

(** C5: if a record of either set has neither [cpu_time] nor [real_time],
    extracting its time raises (Python's [ValueError]) and the comparator
    raises it too: it returns no list, partial or otherwise. *)
Theorem compare_benchmarks_missing_time baseline current threshold n r :
  baseline !! n = Some r ∨ current !! n = Some r →
  r !! "cpu_time" = None → r !! "real_time" = None →
  get_time r = Raise ValueError
  ∧ compare_benchmarks baseline current threshold = Raise ValueError
  ∧ ∀ l, compare_benchmarks baseline current threshold ≠ Ok l.
Proof.
  intros Hn Hcpu Hreal.
  assert (compare_benchmarks baseline current threshold = Raise ValueError)
    as Hraise.
  { apply mapM_Raise.
    - apply Forall_forall. intros n' Hn'%elem_of_sorted_names.
      by apply compare_one_outcome.
    - apply Exists_exists. exists n. split.
      + apply elem_of_sorted_names. destruct Hn as [->| ->]; eauto.
      + by eapply compare_one_missing. }
  split; [by apply get_time_Raise|]. split; [done|].
  intros l. by rewrite Hraise.
Qed.

Lemma compare_benchmarks_missing_time_witness :
  Sample.untimed !! "bench_b" = Some (Sample.record "iterations" 10)
  ∧ compare_benchmarks Sample.baseline Sample.untimed Sample.threshold
    = Raise ValueError.
Proof.
  assert (Sample.untimed !! "bench_b" = Some (Sample.record "iterations" 10))
    as Hn by (vm_compute; reflexivity).
  split; [exact Hn|].
  exact (proj1 (proj2 (compare_benchmarks_missing_time
                         Sample.baseline Sample.untimed Sample.threshold
                         "bench_b" _ (or_intror Hn) eq_refl eq_refl))).
Defined.

(** ** The gate *)

Lemma check_regression_verdict comparisons threshold :
  (check_regression comparisons threshold).1 = true ↔
  (check_regression comparisons threshold).2 ≠ [].
Proof.
  unfold check_regression. simpl. rewrite bool_decide_eq_true.
  destruct (filter _ comparisons); simpl; split; (done || lia).
Qed.

(** C7: the boolean of [check_regression] is true exactly when some
    comparison is a regression, and its list is the input filtered on
    [change_type = REGRESSION]: the regressions and nothing else, in input
    order, and empty when the boolean is false. *)
Theorem check_regression_filter comparisons threshold :
  ((check_regression comparisons threshold).1 = true ↔
     ∃ c, c ∈ comparisons ∧ change_type c = REGRESSION)
  ∧ (check_regression comparisons threshold).2
    = filter (λ c, change_type c = REGRESSION) comparisons
  ∧ (∀ c, c ∈ (check_regression comparisons threshold).2 ↔
          c ∈ comparisons ∧ change_type c = REGRESSION)
  ∧ (check_regression comparisons threshold).2 `sublist_of` comparisons
  ∧ ((check_regression comparisons threshold).1 = false →
       (check_regression comparisons threshold).2 = []).
Proof.
  split; [|split; [done|split; [|split]]].
  - rewrite check_regression_verdict. simpl. split.
    + intros Hne. destruct (filter _ comparisons) as [|c regs] eqn:Hf; [done|].
      assert (c ∈ filter (λ c, change_type c = REGRESSION) comparisons) as Hin
        by (rewrite Hf; by left).
      apply list_elem_of_filter in Hin as [Hreg Hin]. eauto.
    + intros (c & Hc & Hreg) Hnil.
      assert (c ∈ filter (λ c, change_type c = REGRESSION) comparisons) as Hin
        by by apply list_elem_of_filter.
      rewrite Hnil in Hin. by apply elem_of_nil in Hin.
  - intros c. simpl. rewrite list_elem_of_filter. tauto.
  - apply sublist_filter.
  - intros Hfalse. destruct (check_regression comparisons threshold).2 eqn:Hregs;
      [done|].
    assert ((check_regression comparisons threshold).1 = true) as Htrue
      by (apply check_regression_verdict; by rewrite Hregs).
    congruence.
Qed.

(** C10: the threshold argument of [check_regression] has no effect on its
    result. *)
Theorem check_regression_threshold_irrelevant comparisons t1 t2 :
  check_regression comparisons t1 = check_regression comparisons t2.
Proof. reflexivity. Qed.

(** The verdict is a function of the [change_type] fields alone. *)
Lemma check_regression_change_types l1 l2 t1 t2 :
  change_type <$> l1 = change_type <$> l2 →
  (check_regression l1 t1).1 = (check_regression l2 t2).1.
Proof.
  intros Htypes. unfold check_regression. simpl. f_equal.
  apply bool_decide_ext.
  assert (∀ l : list BenchmarkComparison,
            length (filter (λ c, change_type c = REGRESSION) l)
            = length (filter (λ t, t = REGRESSION) (change_type <$> l))) as Hlen.
  { induction l as [|c l IH]; [done|].
    rewrite fmap_cons, !filter_cons. simpl.
    destruct (decide (change_type c = REGRESSION)); simpl; by rewrite IH. }
  by rewrite !Hlen, Htypes.
Qed.

(** ** Number formatting *)

Lemma string_length_app (s1 s2 : string) :
  String.length (s1 +:+ s2) = String.length s1 + String.length s2.
Proof. induction s1 as [|a s1 IH]; simpl; [done|]. by rewrite IH. Qed.

Lemma all_digits_app (s1 s2 : string) :
  all_digits (s1 +:+ s2) = all_digits s1 && all_digits s2.
Proof.
  induction s1 as [|a s1 IH]; simpl; [done|].
  by rewrite IH, andb_assoc.
Qed.

Lemma string_of_uint_digits (d : Decimal.uint) :
  all_digits (NilEmpty.string_of_uint d) = true.
Proof. induction d; simpl; done. Qed.

Lemma str_N_digits (n : N) : all_digits (str_N n) = true ∧ str_N n ≠ "".
Proof.
  unfold str_N, NilZero.string_of_uint.
  destruct (N.to_uint n) as [|d|d|d|d|d|d|d|d|d|d]; simpl;
    (split; [try done; apply string_of_uint_digits | done]).
Qed.

Lemma digit_char_is_digit (d : Z) :
  (0 ≤ d < 10)%Z → is_digit (digit_char d) = true.
Proof.
  intros Hd.
  assert (d ∈ [0; 1; 2; 3; 4; 5; 6; 7; 8; 9]%Z) as Hcases.
  { rewrite !elem_of_cons. lia. }
  rewrite !elem_of_cons, elem_of_nil in Hcases.
  destruct_or!; subst; done.
Qed.

Lemma frac_digits_length (prec : nat) (m : Z) :
  String.length (frac_digits prec m) = prec.
Proof.
  revert m. induction prec as [|p IH]; intros m; cbn [frac_digits]; [done|].
  rewrite string_length_app, IH. cbn [String.length]. lia.
Qed.

Lemma frac_digits_digits (prec : nat) (m : Z) :
  all_digits (frac_digits prec m) = true.
Proof.
  revert m. induction prec as [|p IH]; intros m; cbn [frac_digits]; [done|].
  rewrite all_digits_app, IH. cbn [all_digits andb].
  rewrite digit_char_is_digit; [done|]. by apply Z.mod_pos_bound.
Qed.

(** A non-negative number is printed without sign, with an integer part
    and [prec] digits after the point. *)
Lemma format_f_fixed_point (prec : nat) (x : Q) :
  (0 <= x)%Q → fixed_point (S prec) (format_f (S prec) x).
Proof.
  intros Hx%Qltb_ge. unfold format_f. rewrite Hx.
  eexists _, _. split; [reflexivity|].
  split; [apply str_N_digits|]. split; [apply str_N_digits|].
  split; [apply frac_digits_digits | apply frac_digits_length].
Qed.

(** The number printed is within half a unit of the last place: the
    integer picked by [round_half_even] is a nearest one. *)
Lemma round_half_even_nearest (x : Q) :
  (Qabs (x - inject_Z (round_half_even x)) <= 1 # 2)%Q.
Proof.
  unfold round_half_even. cbv zeta.
  pose proof (Qfloor_le x) as Hlo. pose proof (Qlt_floor x) as Hhi.
  rewrite inject_Z_plus in Hhi. change (inject_Z 1) with 1%Q in Hhi.
  apply Qabs_Qle_condition.
  destruct (Qcompare_spec (x - inject_Z (Qfloor x)) (1 # 2)) as [Heq|Hlt|Hgt].
  - destruct (Z.even (Qfloor x)); rewrite ?inject_Z_plus;
      change (inject_Z 1) with 1%Q; lra.
  - lra.
  - rewrite inject_Z_plus. change (inject_Z 1) with 1%Q. lra.
Qed.

(** ** The duration formatter *)

(** The unit is chosen by the thresholds 1,000 / 1,000,000 / 1,000,000,000
    and the scaled value is printed with two decimal places. *)
Lemma format_time_units (ns : Q) :
  (0 <= ns)%Q →
  ∃ num unit,
    format_time ns = num +:+ " " +:+ unit
    ∧ fixed_point 2 num
    ∧ ((ns < 1000)%Q → num = format_f 2 ns ∧ unit = "ns")
    ∧ ((1000 <= ns < 1000000)%Q →
         num = format_f 2 (ns / 1000) ∧ unit = "¬µs")
    ∧ ((1000000 <= ns < 1000000000)%Q →
         num = format_f 2 (ns / 1000000) ∧ unit = "ms")
    ∧ ((1000000000 <= ns)%Q →
         num = format_f 2 (ns / 1000000000) ∧ unit = "s").
Proof.
  intros Hns. unfold format_time.
  destruct (Qltb ns 1000) eqn:H1;
    [|destruct (Qltb ns 1000000) eqn:H2;
      [|destruct (Qltb ns 1000000000) eqn:H3]];
    rewrite ?Qltb_lt, ?Qltb_ge in *;
    eexists _, _; (split; [reflexivity|]);
    (split; [apply format_f_fixed_point;
             first [lra | apply Qle_shift_div_l; lra]|]);
    repeat split; intros; (done || lra).
Qed.

Lemma format_time_units_witness :
  (0 <= 1000)%Q
  ∧ ∃ num unit,
      format_time 1000 = num +:+ " " +:+ unit
      ∧ fixed_point 2 num
      ∧ ((1000 <= 1000 < 1000000)%Q →
           num = format_f 2 (1000 / 1000) ∧ unit = "¬µs").
Proof.
  assert (0 <= 1000)%Q as Hns by (by vm_compute).
  split; [exact Hns|].
  destruct (format_time_units 1000 Hns) as (num & unit & Hfmt & Hfix & _ & Hmicro & _).
  exists num, unit. exact (conj Hfmt (conj Hfix Hmicro)).
Defined.

(** C8: on the two sides of the first threshold the formatter prints
    "999.00 ns" and, for 1000, the scaled value "1.00" followed by the unit of
    the second range.  That unit is not the micro sign and "s" the claim
    gives: the literal of the source has two more bytes in front of it. *)
Theorem format_time_boundary :
  format_time 999 = "999.00 ns"
  ∧ format_time 1000 = "1.00 ¬µs"
  ∧ format_time 1000 ≠ "1.00 µs".
Proof.
  split; [by vm_compute|]. split; [by vm_compute|].
  vm_compute. discriminate.
Qed.

(** ** The report *)

Lemma time_str_zero (q : Q) : q == 0 → time_str (Some q) = "N/A".
Proof.
  intros Hq%Qeq_bool_iff. unfold time_str, truthy. by rewrite Hq.
Qed.

Lemma elem_of_of_type t comparisons c :
  c ∈ of_type t comparisons ↔ change_type c = t ∧ c ∈ comparisons.
Proof. unfold of_type. by rewrite list_elem_of_filter. Qed.

Lemma result_row_in_report comparisons baseline_file current_file c :
  c ∈ comparisons →
  result_row c ∈ report_lines comparisons baseline_file current_file.
Proof.
  intros Hc. unfold report_lines. rewrite !elem_of_app.
  do 5 right. apply list_elem_of_fmap. eauto.
Qed.

Lemma regression_row_in_report comparisons baseline_file current_file c :
  c ∈ comparisons → change_type c = REGRESSION →
  detail_row "+" c ∈ report_lines comparisons baseline_file current_file.
Proof.
  intros Hc Hty. unfold report_lines. rewrite !elem_of_app.
  right. right. left.
  assert (c ∈ of_type REGRESSION comparisons) as Hin
    by by apply elem_of_of_type.
  destruct (of_type REGRESSION comparisons) as [|c' regs];
    [by apply elem_of_nil in Hin|].
  rewrite !elem_of_app. right. right. left.
  apply list_elem_of_fmap. eauto.
Qed.

Lemma improvement_row_in_report comparisons baseline_file current_file c :
  c ∈ comparisons → change_type c = IMPROVEMENT →
  detail_row "" c ∈ report_lines comparisons baseline_file current_file.
Proof.
  intros Hc Hty. unfold report_lines. rewrite !elem_of_app.
  do 3 right. left.
  assert (c ∈ of_type IMPROVEMENT comparisons) as Hin
    by by apply elem_of_of_type.
  destruct (of_type IMPROVEMENT comparisons) as [|c' imps];
    [by apply elem_of_nil in Hin|].
  rewrite !elem_of_app. right. right. left.
  apply list_elem_of_fmap. eauto.
Qed.

Lemma time_str_nonzero (q : Q) :
  ¬ q == 0 → time_str (Some q) = format_time q.
Proof.
  intros Hq. unfold time_str, truthy.
  destruct (Qeq_bool q 0) eqn:Heq; [|done].
  by apply Qeq_bool_iff in Heq.
Qed.

Lemma string_app_assoc (s1 s2 s3 : string) :
  (s1 +:+ s2) +:+ s3 = s1 +:+ s2 +:+ s3.
Proof.
  induction s1 as [|a s1 IH]; [done|].
  change (String a ((s1 +:+ s2) +:+ s3) = String a (s1 +:+ s2 +:+ s3)).
  by f_equal.
Qed.

Lemma string_app_nil_r (s : string) : s +:+ "" = s.
Proof.
  induction s as [|a s IH]; [done|].
  change (String a (s +:+ "") = String a s). by f_equal.
Qed.

Lemma join_lines_cons (x y : string) (lines : list string) :
  join_lines (x :: y :: lines)
  = x +:+ String "010" "" +:+ join_lines (y :: lines).
Proof. reflexivity. Qed.

(** Every element of the joined list is a whole line of the joined text. *)
Lemma join_lines_elem (x : string) (lines : list string) :
  x ∈ lines → occurs_as_line x (join_lines lines).
Proof.
  induction lines as [|y [|z rest] IH]; intros Hx.
  - by apply elem_of_nil in Hx.
  - apply list_elem_of_singleton in Hx as ->. exists "", "".
    cbn [join_lines String.concat]. rewrite string_app_nil_r. auto.
  - rewrite join_lines_cons. apply elem_of_cons in Hx as [->|Hx].
    + exists "", (String "010" "" +:+ join_lines (z :: rest)).
      split; [done|]. split; [by left|]. right. eauto.
    + destruct (IH Hx) as (b & a & Heq & Hb & Ha).
      exists (y +:+ String "010" "" +:+ b), a. rewrite Heq.
      split; [by rewrite !string_app_assoc|]. split; [|done].
      right. destruct Hb as [->|[b' ->]].
      * exists y. by rewrite string_app_nil_r.
      * exists (y +:+ String "010" "" +:+ b'). by rewrite !string_app_assoc.
Qed.

Lemma report_line_occurs comparisons baseline_file current_file (x : string) :
  x ∈ report_lines comparisons baseline_file current_file →
  occurs_as_line x
    (generate_markdown_report comparisons baseline_file current_file).
Proof. apply join_lines_elem. Qed.

(** C9: a time that is present and equal to zero is printed as "N/A", the
    text of an absent time, in the row of every table of the report.  The row
    of the "All Results" table and the row of the regressions and of the
    improvements table carry the cell "N/A" where the zero time stands, and
    are the rows the comparison would have without that time; each of these
    rows is a whole line of the text returned by [generate_markdown_report].
    A time that is not zero is printed by [format_time]. *)
Theorem zero_time_rendered_as_absent
    comparisons baseline_file current_file c q :
  c ∈ comparisons → q == 0 →
  time_str (Some q) = "N/A"
  ∧ time_str (Some q) = time_str None
  ∧ (baseline_time c = Some q →
       result_row c = result_row (without_baseline c)
       ∧ (∀ sign, detail_row sign c = detail_row sign (without_baseline c))
       ∧ result_row c
         = "| " +:+ name c +:+ " | " +:+ "N/A" +:+ " | "
           +:+ time_str (current_time c) +:+ " | "
           +:+ change_str c +:+ " | " +:+ status_emoji (change_type c) +:+ " |"
       ∧ (∀ sign,
            detail_row sign c
            = "| " +:+ name c +:+ " | " +:+ "N/A" +:+ " | "
              +:+ time_str (current_time c) +:+ " | "
              +:+ sign +:+ format_f 1 (change_percent c * 100) +:+ "% | "
              +:+ format_f 2 (speedup c) +:+ "x |"))
  ∧ (current_time c = Some q →
       result_row c = result_row (without_current c)
       ∧ (∀ sign, detail_row sign c = detail_row sign (without_current c))
       ∧ result_row c
         = "| " +:+ name c +:+ " | " +:+ time_str (baseline_time c) +:+ " | "
           +:+ "N/A" +:+ " | "
           +:+ change_str c +:+ " | " +:+ status_emoji (change_type c) +:+ " |"
       ∧ (∀ sign,
            detail_row sign c
            = "| " +:+ name c +:+ " | " +:+ time_str (baseline_time c) +:+ " | "
              +:+ "N/A" +:+ " | "
              +:+ sign +:+ format_f 1 (change_percent c * 100) +:+ "% | "
              +:+ format_f 2 (speedup c) +:+ "x |"))
  ∧ result_row c ∈ report_lines comparisons baseline_file current_file
  ∧ (change_type c = REGRESSION →
       detail_row "+" c ∈ report_lines comparisons baseline_file current_file)
  ∧ (change_type c = IMPROVEMENT →
       detail_row "" c ∈ report_lines comparisons baseline_file current_file)
  ∧ occurs_as_line (result_row c)
      (generate_markdown_report comparisons baseline_file current_file)
  ∧ (change_type c = REGRESSION →
       occurs_as_line (detail_row "+" c)
         (generate_markdown_report comparisons baseline_file current_file))
  ∧ (change_type c = IMPROVEMENT →
       occurs_as_line (detail_row "" c)
         (generate_markdown_report comparisons baseline_file current_file))
  ∧ (∀ q', ¬ q' == 0 → time_str (Some q') = format_time q').
Proof.
  intros Hc Hq. pose proof (time_str_zero q Hq) as Hna.
  split; [done|]. split; [done|].
  split; [|split; [|split; [|split; [|split; [|split; [|split; [|split]]]]]]].
  - intros Hb. unfold result_row, detail_row, change_str, without_baseline.
    cbn [name baseline_time current_time change_percent change_type speedup].
    by rewrite Hb, Hna.
  - intros Ht. unfold result_row, detail_row, change_str, without_current.
    cbn [name baseline_time current_time change_percent change_type speedup].
    by rewrite Ht, Hna.
  - by apply result_row_in_report.
  - by apply regression_row_in_report.
  - by apply improvement_row_in_report.
  - by apply report_line_occurs, result_row_in_report.
  - intros Hty. by apply report_line_occurs, regression_row_in_report.
  - intros Hty. by apply report_line_occurs, improvement_row_in_report.
  - apply time_str_nonzero.
Qed.

Lemma zero_time_rendered_as_absent_witness :
  Sample.stalled ∈ [Sample.stalled]
  ∧ 0 == 0
  ∧ time_str (current_time Sample.stalled) = "N/A"
  ∧ result_row Sample.stalled = result_row (without_current Sample.stalled)
  ∧ result_row Sample.stalled ∈ report_lines [Sample.stalled] "old.json" "new.json"
  ∧ detail_row "" Sample.stalled
    ∈ report_lines [Sample.stalled] "old.json" "new.json"
  ∧ detail_row "" Sample.stalled = "| x | 100.00 ns | N/A | -100.0% | 0.00x |"
  ∧ occurs_as_line "| x | 100.00 ns | N/A | -100.0% | 0.00x |"
      (generate_markdown_report [Sample.stalled] "old.json" "new.json")
  ∧ occurs_as_line (result_row Sample.stalled)
      (generate_markdown_report [Sample.stalled] "old.json" "new.json").
Proof.
  assert (Sample.stalled ∈ [Sample.stalled]) as Hc by apply list_elem_of_here.
  assert (0 == 0) as Hq by reflexivity.
  split; [exact Hc|]. split; [exact Hq|].
  destruct (zero_time_rendered_as_absent [Sample.stalled] "old.json" "new.json"
              Sample.stalled 0 Hc Hq)
    as (Hna & _ & _ & Hcur & Hrow & _ & Himp & Hline & _ & Hdetail & _).
  destruct (Hcur eq_refl) as (Hsame & _ & _ & Htext).
  assert (detail_row "" Sample.stalled
          = "| x | 100.00 ns | N/A | -100.0% | 0.00x |") as Heq
    by (rewrite (Htext ""); vm_compute; reflexivity).
  split; [exact Hna|]. split; [exact Hsame|].
  split; [exact Hrow|]. split; [exact (Himp eq_refl)|].
  split; [exact Heq|]. split; [|exact Hline].
  rewrite <- Heq. exact (Hdetail eq_refl).
Defined.

(** ** The loader *)

Section loader.
Import Loader.




(** With a ["name"] that is a string in every entry the comprehension
    succeeds. *)
Lemma comprehension_named entries d :
  Forall (λ b, ∃ r s, b = JObj r ∧ r !! "name" = Some (JStr s)) entries →
  ∃ d', comprehension entries d = Ok d'.
Proof.
  intros Hall. revert d.
  induction Hall as [|b entries (r & s & -> & Hr) _ IH]; intros d; simpl.
  - eauto.
  - rewrite Hr. simpl. apply IH.
Qed.




(** The wrapped shape with string names is loaded into a dict keyed by
    name. *)
Lemma load_benchmark_json_wrapped m l :
  m !! "benchmarks" = Some (JArr l) →
  Forall (λ b, ∃ r s, b = JObj r ∧ r !! "name" = Some (JStr s)) l →
  ∃ d, load_benchmark_json (JObj m) = Ok (NewDict d).
Proof.
  intros Hm Hall. unfold load_benchmark_json. simpl.
  rewrite Hm. rewrite bool_decide_eq_true_2 by eauto. simpl.
  destruct (comprehension_named l [] Hall) as [d ->]. simpl. eauto.
Qed.

End loader.

(** ** The scenarios of the specification, run on the model *)

Section scenarios.
Import Sample.

(** Scenario A: 100 to 120 at threshold 0.1 is a regression of 0.20 with a
    speedup of 100/120. *)
Example scenario_regression :
  ∃ c, compare_benchmarks {[ "bench_a" := record "cpu_time" 100 ]}
         {[ "bench_a" := record "cpu_time" 120 ]} (1 # 10) = Ok [c]
       ∧ change_percent c == 2 # 10
       ∧ change_type c = REGRESSION
       ∧ speedup c == 5 # 6.
Proof. eexists. split; [by vm_compute|]. by vm_compute. Qed.

(** Scenario B: a benchmark of the baseline only is removed. *)
Example scenario_removed :
  ∃ c, compare_benchmarks {[ "bench_a" := record "cpu_time" 100 ]} ∅ (1 # 10)
         = Ok [c]
       ∧ change_type c = REMOVED ∧ current_time c = None.
Proof. eexists. split; [by vm_compute|]. by vm_compute. Qed.

(** Scenario C: a new benchmark without [cpu_time] falls back on
    [real_time]. *)
Example scenario_new :
  ∃ c, compare_benchmarks ∅ {[ "bench_b" := record "real_time" 50 ]} (1 # 10)
         = Ok [c]
       ∧ change_type c = NEW ∧ current_time c = Some 50%Q.
Proof. eexists. split; [by vm_compute|]. by vm_compute. Qed.

(** Scenario D: equal times are unchanged. *)
Example scenario_unchanged :
  ∃ c, compare_benchmarks {[ "x" := record "cpu_time" 100 ]}
         {[ "x" := record "cpu_time" 100 ]} (1 # 10) = Ok [c]
       ∧ change_type c = UNCHANGED
       ∧ change_percent c == 0
       ∧ speedup c == 1.
Proof. eexists. split; [by vm_compute|]. by vm_compute. Qed.

(** [cpu_time] is preferred when both fields are present. *)
Example get_time_prefers_cpu_time :
  get_time {[ "cpu_time" := 3%Q; "real_time" := 4%Q ]} = Ok 3%Q.
Proof. reflexivity. Qed.

(** The gate on the sample comparison. *)
Example sample_gate :
  check_regression comparisons threshold = (true, [bench_a]).
Proof. reflexivity. Qed.

(** In the wrapped form a later entry replaces an earlier one of the same
    name. *)
Example load_last_wins :
  let first := JObj {[ "name" := JStr "x"; "cpu_time" := JNum 1 ]} in
  let second := JObj {[ "name" := JStr "x"; "cpu_time" := JNum 2 ]} in
  Loader.load_benchmark_json (JObj {[ "benchmarks" := JArr [first; second] ]})
  = Ok (NewDict [(JStr "x", second)]).
Proof. by vm_compute. Qed.

(** A rendered duration before and after the third threshold. *)
Example format_time_ms :
  format_time 1500000 = "1.50 ms" ∧ format_time 2500000000 = "2.50 s".
Proof. split; by vm_compute. Qed.

End scenarios.

(* ===================================================================== *)
(** * Further properties of the code *)
(* ===================================================================== *)

Set Warnings "-clear-no-such-hyp".

(** ** The comparator, name by name *)

Lemma compare_one_inv baseline current threshold n x :
  compare_one baseline current threshold n = Ok x →
  name x = n
  ∧ match baseline !! n, current !! n with
    | None, None => False
    | None, Some rc =>
        ∃ t, get_time rc = Ok t
             ∧ baseline_time x = None ∧ current_time x = Some t
             ∧ change_percent x = 0%Q ∧ speedup x = 1%Q ∧ change_type x = NEW
    | Some rb, None =>
        ∃ t, get_time rb = Ok t
             ∧ baseline_time x = Some t ∧ current_time x = None
             ∧ change_percent x = 0%Q ∧ speedup x = 1%Q
             ∧ change_type x = REMOVED
    | Some rb, Some rc =>
        ∃ b t, get_time rb = Ok b ∧ get_time rc = Ok t
               ∧ baseline_time x = Some b ∧ current_time x = Some t
               ∧ change_percent x = (if Qltb 0 b then (t - b) / b else 0)%Q
               ∧ speedup x
                 = (if Qltb 0 b then if Qltb 0 t then b / t else 0 else 1)%Q
               ∧ change_type x = classify (change_percent x) threshold
    end.
Proof.
  intros Hx. split; [by eapply compare_one_name|].
  revert Hx. unfold compare_one.
  destruct (baseline !! n) as [rb|], (current !! n) as [rc|]; simpl; [| | |done].
  - destruct (get_time rb) as [b|]; simpl; [|done].
    destruct (get_time rc) as [t|]; simpl; [|done].
    destruct (Qltb 0 b) eqn:Hb; intros [= <-]; exists b, t; simpl;
      by rewrite ?Hb.
  - destruct (get_time rb) as [t|]; simpl; [|done].
    intros [= <-]. by exists t.
  - destruct (get_time rc) as [t|]; simpl; [|done].
    intros [= <-]. by exists t.
Qed.

(** Every name of either set has its comparison in the output. *)
Lemma compare_benchmarks_at baseline current threshold l n :
  compare_benchmarks baseline current threshold = Ok l →
  is_Some (baseline !! n) ∨ is_Some (current !! n) →
  ∃ x, x ∈ l ∧ compare_one baseline current threshold n = Ok x.
Proof.
  intros Hl%compare_benchmarks_Ok Hn%elem_of_sorted_names.
  apply list_elem_of_lookup in Hn as [i Hi].
  destruct (Forall2_lookup_l _ _ _ _ _ Hl Hi) as (x & Hx & Hnx).
  exists x. split; [|done]. apply list_elem_of_lookup. eauto.
Qed.

Lemma classify_matched change threshold :
  classify change threshold ≠ NEW ∧ classify change threshold ≠ REMOVED.
Proof. destruct (classify_three_way change threshold) as [->|[->| ->]]; done. Qed.

Lemma compare_benchmarks_Ok_timed baseline current threshold l n r :
  compare_benchmarks baseline current threshold = Ok l →
  baseline !! n = Some r ∨ current !! n = Some r →
  is_Some (r !! "cpu_time") ∨ is_Some (r !! "real_time").
Proof.
  intros Hl Hn.
  destruct (r !! "cpu_time") eqn:Hcpu; [by eauto|].
  destruct (r !! "real_time") eqn:Hreal; [by eauto|].
  destruct (compare_benchmarks_at _ _ _ _ n Hl) as (x & _ & Hx).
  { destruct Hn as [->| ->]; eauto. }
  rewrite (compare_one_missing _ _ _ n r) in Hx; done.
Qed.

(** Whether the comparator returns does not depend on the threshold nor on
    which set is the baseline. *)
Lemma compare_benchmarks_Ok_swap baseline current threshold threshold' l :
  compare_benchmarks baseline current threshold = Ok l →
  (∃ l', compare_benchmarks baseline current threshold' = Ok l')
  ∧ (∃ l', compare_benchmarks current baseline threshold' = Ok l').
Proof.
  intros Hl. split; apply compare_benchmarks_total; intros n r Hn;
    eapply (compare_benchmarks_Ok_timed _ _ _ _ n r Hl); tauto.
Qed.

(** X3: the two sides are read independently: when the baseline record has
    a [cpu_time] and the current record has only a [real_time], the
    comparison sets the CPU time of the one against the wall-clock time of
    the other. *)
Theorem mixed_time_fields_compared baseline current threshold l n rb rc b t :
  compare_benchmarks baseline current threshold = Ok l →
  baseline !! n = Some rb → current !! n = Some rc →
  rb !! "cpu_time" = Some b →
  rc !! "cpu_time" = None → rc !! "real_time" = Some t →
  ∃ x, x ∈ l ∧ name x = n
       ∧ baseline_time x = Some b ∧ current_time x = Some t.
Proof.
  intros Hl Hb Hc Hcpu Hnocpu Hreal.
  destruct (compare_benchmarks_at _ _ _ _ n Hl) as (x & Hin & Hx); [by eauto|].
  apply compare_one_inv in Hx as [Hname Hx]. rewrite Hb, Hc in Hx.
  destruct Hx as (b' & t' & Hgb & Hgt & Hxb & Hxt & _).
  exists x. split; [done|]. split; [done|].
  assert (get_time rb = Ok b) as Hgb' by (apply get_time_Ok; by left).
  assert (get_time rc = Ok t) as Hgt' by (apply get_time_Ok; by right).
  split; congruence.
Qed.

Lemma mixed_time_fields_compared_witness :
  ∃ x, compare_benchmarks Demo.cpu_only Demo.wall_only Sample.threshold = Ok [x]
       ∧ name x = "bench_a"
       ∧ baseline_time x = Some 100%Q ∧ current_time x = Some 130%Q.
Proof.
  eassert (compare_benchmarks Demo.cpu_only Demo.wall_only Sample.threshold
           = Ok [_]) as Hl by (vm_compute; reflexivity).
  destruct (mixed_time_fields_compared Demo.cpu_only Demo.wall_only
              Sample.threshold _ "bench_a" _ _ 100%Q 130%Q Hl
              eq_refl eq_refl eq_refl eq_refl eq_refl)
    as (x & Hx & Hname & Hb & Ht).
  apply list_elem_of_singleton in Hx as ->.
  eexists. split; [exact Hl|]. exact (conj Hname (conj Hb Ht)).
Defined.

(** ** Speedup, change and verdict *)

Lemma Qdiv_pos_numerator (a b : Q) : (0 < b)%Q → (0 < a / b)%Q → (0 < a)%Q.
Proof.
  intros Hb Hab. apply Qnot_le_lt. intros Ha.
  assert (a / b <= 0)%Q by (apply Qle_shift_div_r; lra). lra.
Qed.

Lemma Qdiv_neg_numerator (a b : Q) : (0 < b)%Q → (a / b < 0)%Q → (a < 0)%Q.
Proof.
  intros Hb Hab. apply Qnot_le_lt. intros Ha.
  assert (0 <= a / b)%Q by (apply Qle_shift_div_l; lra). lra.
Qed.

(** X5: with a non-negative threshold, a comparison classified as a
    regression is a slowdown between positive times: both times are
    present, the baseline is positive and the current time is larger, so
    that the speedup is the quotient [baseline_time / current_time]. *)
Theorem regression_is_slowdown baseline current threshold l x :
  compare_benchmarks baseline current threshold = Ok l → x ∈ l →
  (0 <= threshold)%Q → change_type x = REGRESSION →
  ∃ b t, baseline_time x = Some b ∧ current_time x = Some t
         ∧ (0 < b)%Q ∧ (b < t)%Q
         ∧ speedup x = (b / t)%Q.
Proof.
  intros Hl Hx Hth Hreg.
  destruct (compare_benchmarks_produced _ _ _ _ _ Hl Hx)
    as [? _ _ _ _ Hty|? _ _ _ _ Hty|b t Hb Ht Hp Hs Hty]; [congruence..|].
  rewrite Hreg in Hty. symmetry in Hty. apply classify_regression in Hty.
  destruct (Qltb 0 b) eqn:Hbpos; [|rewrite Hp in Hty; lra].
  apply Qltb_lt in Hbpos.
  assert (b < t)%Q as Hbt.
  { assert (0 < (t - b) / b)%Q as Hpos by (rewrite <- Hp; lra).
    apply Qdiv_pos_numerator in Hpos; lra. }
  exists b, t. repeat split; try done.
  by rewrite Hs, (proj2 (Qltb_lt 0 t)) by lra.
Qed.

Lemma regression_is_slowdown_witness :
  compare_benchmarks Sample.baseline Sample.current Sample.threshold
    = Ok Sample.comparisons
  ∧ (0 <= Sample.threshold)%Q
  ∧ ∃ b t, Some 100%Q = Some b ∧ Some 120%Q = Some t
           ∧ (0 < b)%Q ∧ (b < t)%Q
           ∧ (100 / 120)%Q = (b / t)%Q.
Proof.
  assert (compare_benchmarks Sample.baseline Sample.current Sample.threshold
          = Ok Sample.comparisons) as Hl by (vm_compute; reflexivity).
  assert (0 <= Sample.threshold)%Q as Hth by (by vm_compute).
  split; [exact Hl|]. split; [exact Hth|].
  exact (regression_is_slowdown _ _ _ _ Sample.bench_a Hl
           (list_elem_of_here _ _) Hth eq_refl).
Defined.

(** X6: with a non-negative threshold, a comparison classified as an
    improvement has both times, a positive baseline and a smaller current
    time; its speedup is the quotient [baseline_time / current_time] when
    the current time is positive, and it is 0, not a large number, when the
    current time is zero or negative. *)
Theorem improvement_speedup baseline current threshold l x :
  compare_benchmarks baseline current threshold = Ok l → x ∈ l →
  (0 <= threshold)%Q → change_type x = IMPROVEMENT →
  ∃ b t, baseline_time x = Some b ∧ current_time x = Some t
         ∧ (0 < b)%Q ∧ (t < b)%Q
         ∧ ((0 < t)%Q → speedup x = (b / t)%Q)
         ∧ ((t <= 0)%Q → speedup x = 0%Q).
Proof.
  intros Hl Hx Hth Himp.
  destruct (compare_benchmarks_produced _ _ _ _ _ Hl Hx)
    as [? _ _ _ _ Hty|? _ _ _ _ Hty|b t Hb Ht Hp Hs Hty]; [congruence..|].
  rewrite Himp in Hty. symmetry in Hty.
  apply classify_improvement in Hty; [|done].
  destruct (Qltb 0 b) eqn:Hbpos; [|rewrite Hp in Hty; lra].
  apply Qltb_lt in Hbpos.
  assert (t < b)%Q as Htb.
  { assert ((t - b) / b < 0)%Q as Hneg by (rewrite <- Hp; lra).
    apply Qdiv_neg_numerator in Hneg; lra. }
  exists b, t. repeat split; try done.
  - intros Htpos. by rewrite Hs, (proj2 (Qltb_lt 0 t)).
  - intros Htneg. by rewrite Hs, (proj2 (Qltb_ge 0 t)).
Qed.

Lemma improvement_speedup_witness :
  compare_benchmarks Sample.stalled_baseline Sample.stalled_current
    Sample.threshold = Ok [Sample.stalled]
  ∧ (0 <= Sample.threshold)%Q
  ∧ ∃ b t, Some 100%Q = Some b ∧ Some 0%Q = Some t
           ∧ (0 < b)%Q ∧ (t < b)%Q
           ∧ ((0 < t)%Q → 0%Q = (b / t)%Q)
           ∧ ((t <= 0)%Q → 0%Q = 0%Q).
Proof.
  assert (compare_benchmarks Sample.stalled_baseline Sample.stalled_current
            Sample.threshold = Ok [Sample.stalled]) as Hl
    by (vm_compute; reflexivity).
  assert (0 <= Sample.threshold)%Q as Hth by (by vm_compute).
  split; [exact Hl|]. split; [exact Hth|].
  exact (improvement_speedup _ _ _ _ Sample.stalled Hl
           (list_elem_of_here _ _) Hth eq_refl).
Defined.

(** ** Comparing related pairs of sets *)

Lemma classify_zero change threshold :
  change == 0 → (0 <= threshold)%Q → classify change threshold = UNCHANGED.
Proof.
  intros Hzero Hth. unfold classify.
  rewrite (proj2 (Qltb_ge threshold change)) by lra.
  by rewrite (proj2 (Qltb_ge change (- threshold))) by lra.
Qed.

Lemma check_regression_none comparisons threshold :
  (∀ x, x ∈ comparisons → change_type x ≠ REGRESSION) →
  check_regression comparisons threshold = (false, []).
Proof.
  intros Hnone. unfold check_regression.
  destruct (filter _ comparisons) as [|x regs] eqn:Hf; [done|].
  assert (x ∈ filter (λ c, change_type c = REGRESSION) comparisons) as Hin
    by (rewrite Hf; by left).
  apply list_elem_of_filter in Hin as [Hreg Hin]. by destruct (Hnone x).
Qed.

Lemma check_regression_true comparisons threshold :
  (check_regression comparisons threshold).1 = true ↔
  ∃ x, x ∈ comparisons ∧ change_type x = REGRESSION.
Proof.
  rewrite check_regression_verdict. simpl. split.
  - intros Hne. destruct (filter _ comparisons) as [|x regs] eqn:Hf; [done|].
    assert (x ∈ filter (λ c, change_type c = REGRESSION) comparisons) as Hin
      by (rewrite Hf; by left).
    apply list_elem_of_filter in Hin as [Hreg Hin]. eauto.
  - intros (x & Hx & Hreg) Hnil.
    by apply (filter_nil_not_elem_of _ _ x Hnil).
Qed.

(** X7: comparing a set with itself, at a non-negative threshold, reports
    every benchmark as unchanged, with the same time on both sides, never
    as new, removed, improved or regressed, and the gate finds no
    regression. *)
Theorem self_comparison_unchanged baseline threshold l :
  compare_benchmarks baseline baseline threshold = Ok l →
  (0 <= threshold)%Q →
  (∀ x, x ∈ l →
     change_type x = UNCHANGED ∧ baseline_time x = current_time x)
  ∧ check_regression l threshold = (false, []).
Proof.
  intros Hl Hth.
  assert (∀ x, x ∈ l →
            change_type x = UNCHANGED ∧ baseline_time x = current_time x)
    as Hall.
  { intros x Hx.
    destruct (compare_benchmarks_elem _ _ _ _ _ Hl Hx) as [n Hn].
    apply compare_one_inv in Hn as [_ Hn].
    destruct (baseline !! n) as [r|]; [|done].
    destruct Hn as (b & t & Hgb & Hgt & Hb & Ht & Hp & Hs & Hty).
    assert (t = b) as -> by congruence.
    assert (change_percent x == 0) as Hzero.
    { rewrite Hp. destruct (Qltb 0 b); [|done]. unfold Qdiv. ring. }
    split; [rewrite Hty; by apply classify_zero|]. congruence. }
  split; [done|]. apply check_regression_none.
  intros x Hx. destruct (Hall x Hx) as [-> _]. done.
Qed.

Lemma self_comparison_unchanged_witness :
  ∃ l, compare_benchmarks Sample.baseline Sample.baseline Sample.threshold = Ok l
       ∧ (0 <= Sample.threshold)%Q
       ∧ length l = 2
       ∧ check_regression l Sample.threshold = (false, []).
Proof.
  eassert (compare_benchmarks Sample.baseline Sample.baseline Sample.threshold
           = Ok _) as Hl by (vm_compute; reflexivity).
  assert (0 <= Sample.threshold)%Q as Hth by (by vm_compute).
  eexists. split; [exact Hl|]. split; [exact Hth|]. split; [reflexivity|].
  exact (proj2 (self_comparison_unchanged _ _ _ Hl Hth)).
Defined.

(** Two lists built element by element from the same list of names. *)
Lemma Forall2_same_names {A B C} (P : A → B → Prop) (Q : A → C → Prop)
    (R : B → C → Prop) (names : list A) (l : list B) (l' : list C) :
  (∀ n x y, P n x → Q n y → R x y) →
  Forall2 P names l → Forall2 Q names l' → Forall2 R l l'.
Proof.
  intros HR Hl. revert l'.
  induction Hl as [|n x names l Hx _ IH]; intros l' Hl'.
  - apply Forall2_nil_inv_l in Hl' as ->. constructor.
  - apply Forall2_cons_inv_l in Hl' as (y & k & Hy & Hk & ->).
    constructor; eauto.
Qed.

(** X8: when the comparator returns a list for two sets and a list for the
    same sets exchanged, the two lists have the same names in the same
    order, the two times exchanged, and "new" and "removed" exchanged. *)
Theorem swapped_sets_mirror baseline current threshold threshold' l l' :
  compare_benchmarks baseline current threshold = Ok l →
  compare_benchmarks current baseline threshold' = Ok l' →
  Forall2 (λ x y,
    name x = name y
    ∧ baseline_time x = current_time y
    ∧ current_time x = baseline_time y
    ∧ (change_type x = NEW ↔ change_type y = REMOVED)
    ∧ (change_type x = REMOVED ↔ change_type y = NEW)) l l'.
Proof.
  intros Hl Hl'.
  apply compare_benchmarks_Ok in Hl, Hl'.
  assert (all_names current baseline = all_names baseline current) as Hnames
    by (unfold all_names; apply (comm_L (∪))).
  rewrite Hnames in Hl'.
  eapply Forall2_same_names; [| exact Hl | exact Hl'].
  intros n x y Hx Hy. simpl in Hx, Hy.
  apply compare_one_inv in Hx as [Hnx Hx], Hy as [Hny Hy].
  split; [congruence|].
  destruct (baseline !! n) as [rb|], (current !! n) as [rc|]; [| | |done].
  - destruct Hx as (b & t & Hgb & Hgt & Hb & Ht & _ & _ & Hty).
    destruct Hy as (b' & t' & Hgb' & Hgt' & Hb' & Ht' & _ & _ & Hty').
    destruct (classify_matched (change_percent x) threshold).
    destruct (classify_matched (change_percent y) threshold').
    rewrite Hb, Ht, Hb', Ht', Hty, Hty'.
    repeat split; (congruence || done).
  - destruct Hx as (t & Hg & Hb & Ht & _ & _ & Hty).
    destruct Hy as (t' & Hg' & Hb' & Ht' & _ & _ & Hty').
    rewrite Hb, Ht, Hb', Ht', Hty, Hty'.
    repeat split; (congruence || done).
  - destruct Hx as (t & Hg & Hb & Ht & _ & _ & Hty).
    destruct Hy as (t' & Hg' & Hb' & Ht' & _ & _ & Hty').
    rewrite Hb, Ht, Hb', Ht', Hty, Hty'.
    repeat split; (congruence || done).
Qed.

Lemma swapped_sets_mirror_witness :
  compare_benchmarks Sample.baseline Sample.current Sample.threshold
    = Ok Sample.comparisons
  ∧ ∃ l', compare_benchmarks Sample.current Sample.baseline Sample.threshold
            = Ok l'
          ∧ change_type <$> l' = [IMPROVEMENT; REMOVED; NEW]
          ∧ Forall2 (λ x y,
              name x = name y
              ∧ baseline_time x = current_time y
              ∧ current_time x = baseline_time y
              ∧ (change_type x = NEW ↔ change_type y = REMOVED)
              ∧ (change_type x = REMOVED ↔ change_type y = NEW))
              Sample.comparisons l'.
Proof.
  assert (compare_benchmarks Sample.baseline Sample.current Sample.threshold
          = Ok Sample.comparisons) as Hl by (vm_compute; reflexivity).
  eassert (compare_benchmarks Sample.current Sample.baseline Sample.threshold
           = Ok _) as Hl' by (vm_compute; reflexivity).
  split; [exact Hl|]. eexists. split; [exact Hl'|]. split; [reflexivity|].
  exact (swapped_sets_mirror _ _ _ _ _ _ Hl Hl').
Defined.

(** X9: raising the threshold changes nothing in the comparisons but their
    classification and never adds a regression: what is a regression at the
    higher threshold is one at the lower, and if the gate finds a regression
    at the higher threshold it finds one at the lower. *)
Theorem raising_threshold_drops_regressions
    baseline current threshold threshold' l :
  compare_benchmarks baseline current threshold = Ok l →
  (threshold <= threshold')%Q →
  ∃ l', compare_benchmarks baseline current threshold' = Ok l'
        ∧ Forall2 (λ x y,
            name x = name y
            ∧ baseline_time x = baseline_time y
            ∧ current_time x = current_time y
            ∧ change_percent x = change_percent y
            ∧ speedup x = speedup y
            ∧ (change_type y = REGRESSION → change_type x = REGRESSION)) l l'
        ∧ ((check_regression l' threshold').1 = true →
           (check_regression l threshold).1 = true).
Proof.
  intros Hl Hle.
  destruct (compare_benchmarks_Ok_swap _ _ _ threshold' _ Hl) as [[l' Hl'] _].
  exists l'. split; [done|].
  assert (Forall2 (λ x y,
            name x = name y
            ∧ baseline_time x = baseline_time y
            ∧ current_time x = current_time y
            ∧ change_percent x = change_percent y
            ∧ speedup x = speedup y
            ∧ (change_type y = REGRESSION → change_type x = REGRESSION)) l l')
    as Hpairs.
  { apply compare_benchmarks_Ok in Hl, Hl'.
    eapply Forall2_same_names; [| exact Hl | exact Hl'].
    intros n x y Hx Hy. simpl in Hx, Hy.
    apply compare_one_inv in Hx as [Hnx Hx], Hy as [Hny Hy].
    split; [congruence|].
    destruct (baseline !! n) as [rb|], (current !! n) as [rc|]; [| | |done].
    - destruct Hx as (b & t & Hgb & Hgt & Hb & Ht & Hp & Hs & Hty).
      destruct Hy as (b' & t' & Hgb' & Hgt' & Hb' & Ht' & Hp' & Hs' & Hty').
      assert (b' = b) as -> by congruence.
      assert (t' = t) as -> by congruence.
      assert (change_percent x = change_percent y) as Hsame by congruence.
      repeat split; try congruence.
      rewrite Hty, Hty', !classify_regression, Hsame. lra.
    - destruct Hx as (t & Hg & Hb & Ht & Hp & Hs & Hty).
      destruct Hy as (t' & Hg' & Hb' & Ht' & Hp' & Hs' & Hty').
      repeat split; congruence.
    - destruct Hx as (t & Hg & Hb & Ht & Hp & Hs & Hty).
      destruct Hy as (t' & Hg' & Hb' & Ht' & Hp' & Hs' & Hty').
      repeat split; congruence. }
  split; [done|].
  rewrite !check_regression_true. intros (y & [i Hi]%list_elem_of_lookup & Hreg).
  destruct (Forall2_lookup_r _ _ _ _ _ Hpairs Hi) as (x & Hx & Hxy).
  exists x. split; [apply list_elem_of_lookup; eauto|]. by apply Hxy.
Qed.

Lemma raising_threshold_drops_regressions_witness :
  compare_benchmarks Sample.baseline Sample.current Sample.threshold
    = Ok Sample.comparisons
  ∧ (Sample.threshold <= 1 # 2)%Q
  ∧ ∃ l', compare_benchmarks Sample.baseline Sample.current (1 # 2) = Ok l'
          ∧ ((check_regression l' (1 # 2)).1 = true →
             (check_regression Sample.comparisons Sample.threshold).1 = true).
Proof.
  assert (compare_benchmarks Sample.baseline Sample.current Sample.threshold
          = Ok Sample.comparisons) as Hl by (vm_compute; reflexivity).
  assert (Sample.threshold <= 1 # 2)%Q as Hle by (by vm_compute).
  split; [exact Hl|]. split; [exact Hle|].
  destruct (raising_threshold_drops_regressions _ _ _ (1 # 2) _ Hl Hle)
    as (l' & Hl' & _ & Hgate).
  exists l'. exact (conj Hl' Hgate).
Defined.

(** ** The gate on composed lists *)

(** X11: the gate distributes over concatenation, and applying it to its
    own list of regressions gives back the same verdict and the same
    list. *)
Theorem check_regression_compose l1 l2 t1 t2 t3 :
  check_regression (l1 ++ l2) t1
  = ((check_regression l1 t2).1 || (check_regression l2 t3).1,
     (check_regression l1 t2).2 ++ (check_regression l2 t3).2)
  ∧ check_regression (check_regression l1 t1).2 t2 = check_regression l1 t1.
Proof.
  unfold check_regression. simpl. split.
  - rewrite filter_app. f_equal. rewrite length_app.
    destruct (filter _ l1), (filter _ l2); simpl; try done.
  - rewrite list_filter_filter_l by done. done.
Qed.

(** ** The structure of the report *)



(** X13: the report has 17 fixed lines, five more lines and one row per
    regression when there is a regression, the same for the improvements,
    and it ends with one row per comparison, in the order of the list. *)
Theorem report_layout comparisons baseline_file current_file :
  length (report_lines comparisons baseline_file current_file)
  = 17 + length comparisons
    + match of_type REGRESSION comparisons with
      | [] => 0
      | regs => 5 + length regs
      end
    + match of_type IMPROVEMENT comparisons with
      | [] => 0
      | imps => 5 + length imps
      end
  ∧ drop (length (report_lines comparisons baseline_file current_file)
          - length comparisons)
      (report_lines comparisons baseline_file current_file)
    = result_row <$> comparisons.
Proof.
  assert (∃ front,
            report_lines comparisons baseline_file current_file
            = front ++ (result_row <$> comparisons)
            ∧ length front
              = 17 + match of_type REGRESSION comparisons with
                     | [] => 0
                     | regs => 5 + length regs
                     end
                + match of_type IMPROVEMENT comparisons with
                  | [] => 0
                  | imps => 5 + length imps
                  end) as (front & -> & Hfront).
  { unfold report_lines. eexists. rewrite !(assoc_L (++)). split; [reflexivity|].
    rewrite !length_app.
    destruct (of_type REGRESSION comparisons),
      (of_type IMPROVEMENT comparisons);
      simpl; rewrite ?length_app, ?length_fmap; simpl; lia. }
  rewrite length_app, length_fmap. split; [lia|].
  replace (length front + length comparisons - length comparisons)
    with (length front) by lia.
  by rewrite drop_app_length.
Qed.

(** The parts of the report a line can come from. *)
Lemma elem_of_report_lines line comparisons baseline_file current_file :
  line ∈ report_lines comparisons baseline_file current_file →
  line ∈ [ "# Benchmark Comparison Report"; "";
           "- **Baseline**: `" +:+ baseline_file +:+ "`";
           "- **Current**: `" +:+ current_file +:+ "`"; ""; "## Summary"; "" ]
  ∨ (∃ t title,
       line = "- " +:+ status_emoji t +:+ title
                   +:+ str_nat (length (of_type t comparisons)))
  ∨ (of_type REGRESSION comparisons ≠ []
     ∧ (line = "## " +:+ status_emoji REGRESSION +:+ " Regressions"
        ∨ line ∈ table_header
        ∨ line ∈ detail_row "+" <$> of_type REGRESSION comparisons))
  ∨ (of_type IMPROVEMENT comparisons ≠ []
     ∧ (line = "## " +:+ status_emoji IMPROVEMENT +:+ " Improvements"
        ∨ line ∈ table_header
        ∨ line ∈ detail_row "" <$> of_type IMPROVEMENT comparisons))
  ∨ line ∈ [ "## All Results";
             "| Benchmark | Baseline | Current | Change | Status |";
             "|-----------|----------|---------|--------|--------|" ]
  ∨ line ∈ result_row <$> comparisons.
Proof.
  unfold report_lines. rewrite !elem_of_app.
  intros [H|[H|[H|[H|[H|H]]]]].
  - by left.
  - rewrite !elem_of_cons, elem_of_nil in H.
    destruct H as [->|[->|[->|[->|[->|[->|[]]]]]]].
    + right; left. by exists IMPROVEMENT, " Improvements: ".
    + right; left. by exists REGRESSION, " Regressions: ".
    + right; left. by exists UNCHANGED, " Unchanged: ".
    + right; left. by exists NEW, " New: ".
    + right; left. by exists REMOVED, " Removed: ".
    + left. set_solver.
  - destruct (of_type REGRESSION comparisons) as [|r regs] eqn:Hregs;
      [by apply elem_of_nil in H|].
    rewrite !elem_of_app, !elem_of_cons, !elem_of_nil in H.
    destruct H as [[->|[->|[]]]|[H|[H|[->|[]]]]].
    + do 2 right; left. split; [done|]. by left.
    + left. set_solver.
    + do 2 right; left. split; [done|]. right; by left.
    + do 2 right; left. split; [done|]. right; by right.
    + left. set_solver.
  - destruct (of_type IMPROVEMENT comparisons) as [|i imps] eqn:Himps;
      [by apply elem_of_nil in H|].
    rewrite !elem_of_app, !elem_of_cons, !elem_of_nil in H.
    destruct H as [[->|[->|[]]]|[H|[H|[->|[]]]]].
    + do 3 right; left. split; [done|]. by left.
    + left. set_solver.
    + do 3 right; left. split; [done|]. right; by left.
    + do 3 right; left. split; [done|]. right; by right.
    + left. set_solver.
  - rewrite !elem_of_cons, elem_of_nil in H.
    destruct H as [->|[->|[->|[->|[]]]]].
    + do 4 right; left. set_solver.
    + left. set_solver.
    + do 4 right; left. set_solver.
    + do 4 right; left. set_solver.
  - by do 5 right.
Qed.

(** X14: the report has a "Regressions" section exactly when the gate's
    verdict on the same list is true, and an "Improvements" section exactly
    when some comparison is an improvement. *)
Theorem report_sections_follow_verdict
    comparisons baseline_file current_file threshold :
  ("## " +:+ status_emoji REGRESSION +:+ " Regressions"
     ∈ report_lines comparisons baseline_file current_file
   ↔ (check_regression comparisons threshold).1 = true)
  ∧ ("## " +:+ status_emoji IMPROVEMENT +:+ " Improvements"
       ∈ report_lines comparisons baseline_file current_file
     ↔ ∃ x, x ∈ comparisons ∧ change_type x = IMPROVEMENT).
Proof.
  assert (∀ t, of_type t comparisons ≠ [] ↔
               ∃ x, x ∈ comparisons ∧ change_type x = t) as Hne.
  { intros t. split.
    - destruct (of_type t comparisons) as [|x xs] eqn:Hf; [done|]. intros _.
      assert (x ∈ of_type t comparisons) as Hin by (rewrite Hf; by left).
      apply elem_of_of_type in Hin as [??]. eauto.
    - intros (x & Hx & Hty) Hnil.
      assert (x ∈ of_type t comparisons) as Hin by by apply elem_of_of_type.
      rewrite Hnil in Hin. by apply elem_of_nil in Hin. }
  rewrite check_regression_true, <- !Hne.
  split; split.
  - intros Hin. apply elem_of_report_lines in Hin.
    destruct Hin as [H|[(t & title & H)|[[Hregs _]|[[_ H]|[H|H]]]]];
      [| |done|..]; exfalso.
    + rewrite !elem_of_cons, elem_of_nil in H. destruct_or!; other_line H.
    + other_line H.
    + unfold table_header in H.
      rewrite list_elem_of_fmap, !elem_of_cons, elem_of_nil in H.
      destruct H as [H|[[H|[H|[]]]|(c & H & _)]]; other_line H.
    + rewrite !elem_of_cons, elem_of_nil in H. destruct_or!; other_line H.
    + apply list_elem_of_fmap in H as (c & H & _). other_line H.
  - intros Hregs. unfold report_lines. rewrite !elem_of_app.
    do 2 right. left.
    destruct (of_type REGRESSION comparisons); [done|]. by left.
  - intros Hin. apply elem_of_report_lines in Hin.
    destruct Hin as [H|[(t & title & H)|[[_ H]|[[Himps _]|[H|H]]]]];
      [| | |done|..]; exfalso.
    + rewrite !elem_of_cons, elem_of_nil in H. destruct_or!; other_line H.
    + other_line H.
    + unfold table_header in H.
      rewrite list_elem_of_fmap, !elem_of_cons, elem_of_nil in H.
      destruct H as [H|[[H|[H|[]]]|(c & H & _)]]; other_line H.
    + rewrite !elem_of_cons, elem_of_nil in H. destruct_or!; other_line H.
    + apply list_elem_of_fmap in H as (c & H & _). other_line H.
  - intros Himps. unfold report_lines. rewrite !elem_of_app.
    do 3 right. left.
    destruct (of_type IMPROVEMENT comparisons); [done|]. by left.
Qed.

(** ** Formatting depends on the value only *)


Lemma round_half_even_comp (x y : Q) :
  x == y → round_half_even x = round_half_even y.
Proof.
  intros Hxy. unfold round_half_even. cbv zeta.
  rewrite (Qfloor_comp x y Hxy).
  assert ((x - inject_Z (Qfloor y) ?= 1 # 2)%Q
          = (y - inject_Z (Qfloor y) ?= 1 # 2)%Q) as -> by by rewrite Hxy.
  done.
Qed.



Lemma Qfloor_unique (x : Q) (z : Z) :
  (inject_Z z <= x)%Q → (x < inject_Z (z + 1))%Q → Qfloor x = z.
Proof.
  intros Hlo Hhi.
  pose proof (Qfloor_le x) as Hfl. pose proof (Qlt_floor x) as Hfh.
  assert (inject_Z (Qfloor x) < inject_Z (z + 1))%Q as H1 by lra.
  assert (inject_Z z < inject_Z (Qfloor x + 1))%Q as H2 by lra.
  rewrite <- Zlt_Qlt in H1, H2. lia.
Qed.

(** X15: the unit is picked before the value is rounded: a duration from
    999.995 ns up to, but not including, 1000 ns is printed as
    "1000.00 ns", not as one microsecond. *)
Theorem format_time_rounds_into_next_unit (ns : Q) :
  (999995 # 1000 <= ns)%Q → (ns < 1000)%Q →
  format_time ns = "1000.00 ns".
Proof.
  intros Hlo Hhi. unfold format_time, format_f. cbv zeta.
  rewrite (proj2 (Qltb_lt ns 1000)) by done.
  rewrite (proj2 (Qltb_ge ns 0)) by lra.
  assert (round_half_even (Qabs ns * inject_Z (10 ^ Z.of_nat 2))%Q = 100000%Z)
    as ->; [|by vm_compute].
  rewrite (round_half_even_comp _ (ns * 100)%Q).
  2:{ rewrite Qabs_pos by lra. reflexivity. }
  unfold round_half_even. cbv zeta.
  assert (Qfloor (ns * 100)%Q = 99999%Z) as ->.
  { apply Qfloor_unique.
    - change (inject_Z 99999) with (99999 # 1)%Q. lra.
    - change (inject_Z (99999 + 1)) with (100000 # 1)%Q. lra. }
  change (inject_Z 99999) with (99999 # 1)%Q.
  destruct (Qcompare_spec (ns * 100 - (99999 # 1))%Q (1 # 2)%Q) as [_|Hlt|_];
    [done| lra | done].
Qed.

Lemma format_time_rounds_into_next_unit_witness :
  (999995 # 1000 <= 999999 # 1000)%Q ∧ (999999 # 1000 < 1000)%Q
  ∧ format_time (999999 # 1000) = "1000.00 ns".
Proof.
  assert (999995 # 1000 <= 999999 # 1000)%Q as Hlo by (by vm_compute).
  assert (999999 # 1000 < 1000)%Q as Hhi by (by vm_compute).
  split; [exact Hlo|]. split; [exact Hhi|].
  exact (format_time_rounds_into_next_unit _ Hlo Hhi).
Defined.

(** ** The console summary *)

Lemma summary_line_outcome (c : BenchmarkComparison) :
  (Console.printable c ↔ ∃ s, Console.summary_line c = Ok s)
  ∧ (∀ e, Console.summary_line c = Raise e → e = TypeError).
Proof.
  unfold Console.printable, Console.summary_line, Console.format_time_of.
  destruct (change_type c), (baseline_time c) as [b|], (current_time c) as [t|];
    simpl; split; try (intros e [= <-]; done); try done;
    split; try (intros [s [=]]); try (intros [[? [=]] [? [=]]]);
    try (intros [? [=]]); eauto.
Qed.

Lemma print_each_outcome (comparisons : list BenchmarkComparison) :
  ((Console.print_each comparisons).2 = Ok () ↔
     Forall Console.printable comparisons)
  ∧ ((Console.print_each comparisons).2 = Ok () →
       length (Console.print_each comparisons).1 = length comparisons)
  ∧ (∀ e, (Console.print_each comparisons).2 = Raise e →
       e = TypeError
       ∧ length (Console.print_each comparisons).1 < length comparisons).
Proof.
  induction comparisons as [|c l (IHok & IHlen & IHraise)]; simpl.
  { split; [done|]. split; [done|]. intros e [=]. }
  destruct (summary_line_outcome c) as [Hprint Hraise].
  destruct (Console.summary_line c) as [line|e'] eqn:Hline; simpl.
  - destruct (Console.print_each l) as [out r]; simpl in *.
    split; [|split].
    + rewrite Forall_cons, <- IHok. split; [|tauto].
      intros Hr. split; [|done]. apply Hprint. eauto.
    + intros Hr. by rewrite IHlen.
    + intros e Hr. destruct (IHraise e Hr). split; [done|lia].
  - split; [|split]; [|done|].
    + split; [done|]. intros [[s [=]]%Hprint _]%Forall_cons.
    + intros e [= <-]. split; [by apply Hraise|lia].
Qed.


Lemma print_summary_fails_on_timeless :
  Console.print_summary [Demo.instant; Demo.timeless; Sample.bench_a]
  = ([Console.summary_header;
      "  " +:+ status_emoji NEW +:+ " noop: NEW (0.00 ns)"], Raise TypeError).
Proof. by vm_compute. Qed.

Lemma produced_printable threshold c : produced threshold c → Console.printable c.
Proof.
  unfold Console.printable.
  intros [t Hb Ht _ _ Hty|t Hb Ht _ _ Hty|b t Hb Ht _ _ Hty].
  - by rewrite Hty, Ht.
  - by rewrite Hty.
  - rewrite Hb, Ht.
    destruct (classify_three_way (change_percent c) threshold) as [H|[H|H]];
      rewrite Hty, H; by eauto.
Qed.



(** ** The dict built by the loader *)

Section wrapped.
Import Loader.

Lemma key_eqb_str (k : json) (s : string) :
  key_eqb k (JStr s) = true ↔ k = JStr s.
Proof.
  destruct k as [|b|q|s'|l|m']; simpl; try (split; [done|intros [=]]).
  rewrite String.eqb_eq. split; [by intros ->|by intros [= ->]].
Qed.

Lemma dict_get_set (s s' : string) (v : json) (d : list (json * json)) :
  dict_get (JStr s') (dict_set (JStr s) v d)
  = if decide (s = s') then Some v else dict_get (JStr s') d.
Proof.
  induction d as [|[k' v'] d IH]; simpl.
  - destruct (String.eqb_spec s s'); by case_decide.
  - destruct (key_eqb k' (JStr s)) eqn:Hk; simpl.
    + apply key_eqb_str in Hk as ->. simpl.
      destruct (String.eqb_spec s s'); by case_decide.
    + rewrite IH. case_decide as Hs; [|done].
      subst s'. by rewrite Hk.
Qed.

Lemma dict_set_keys (s : string) (v : json) (d : list (json * json)) :
  (JStr s ∈ d.*1) ∧ (dict_set (JStr s) v d).*1 = d.*1
  ∨ (JStr s ∉ d.*1) ∧ (dict_set (JStr s) v d).*1 = d.*1 ++ [JStr s].
Proof.
  induction d as [|[k' v'] d IH]; cbn [dict_set].
  - right. split; [apply not_elem_of_nil|done].
  - destruct (key_eqb k' (JStr s)) eqn:Hk; rewrite !fmap_cons; cbn [fst].
    + apply key_eqb_str in Hk as ->. left. split; [by left|done].
    + assert (k' ≠ JStr s) as Hne.
      { intros Heq. apply key_eqb_str in Heq. congruence. }
      destruct IH as [[Hin Heq]|[Hin Heq]]; rewrite Heq.
      * left. split; [by right|done].
      * right. split; [|done].
        intros [?|?]%elem_of_cons; congruence.
Qed.

Lemma comprehension_fold (entries : list json) (d : list (json * json)) :
  Forall (λ b, is_Some (entry_name b)) entries →
  comprehension entries d = Ok (foldl store_entry d entries).
Proof.
  intros Hall. revert d.
  induction Hall as [|b entries [s Hs] _ IH]; intros d; simpl; [done|].
  unfold store_entry at 2. rewrite Hs. unfold entry_name in Hs.
  destruct b as [| | | | |r]; try done. simpl.
  destruct (r !! "name") as [[| | |s'| |]|]; try done.
  injection Hs as ->. simpl. apply IH.
Qed.

Lemma store_entries_get (entries : list json) (d : list (json * json))
    (s : string) :
  dict_get (JStr s) (foldl store_entry d entries)
  = match last (filter (λ b, entry_name b = Some s) entries) with
    | Some b => Some b
    | None => dict_get (JStr s) d
    end.
Proof.
  revert d. induction entries as [|b entries IH]; intros d; simpl; [done|].
  rewrite IH, filter_cons. unfold store_entry.
  destruct (entry_name b) as [s'|] eqn:Hb.
  - rewrite dict_get_set.
    destruct (decide (Some s' = Some s)) as [[= ->]|Hne].
    + rewrite last_cons, decide_True by done.
      by destruct (last (filter _ entries)).
    + rewrite decide_False by congruence. done.
  - rewrite decide_False by done. done.
Qed.

Lemma store_entries_keys (entries : list json) (d : list (json * json)) :
  NoDup d.*1 →
  NoDup (foldl store_entry d entries).*1
  ∧ length (foldl store_entry d entries) ≤ length d + length entries.
Proof.
  revert d. induction entries as [|b entries IH]; intros d Hd; simpl.
  { split; [done|lia]. }
  assert (NoDup (store_entry d b).*1
          ∧ length (store_entry d b) ≤ S (length d)) as [Hnd Hlen].
  { unfold store_entry. destruct (entry_name b) as [s|]; [|split; [done|lia]].
    pose proof (dict_set_keys s b d) as Hkeys.
    assert (length (dict_set (JStr s) b d) = length (dict_set (JStr s) b d).*1)
      as -> by by rewrite length_fmap.
    destruct Hkeys as [[Hin ->]|[Hin ->]].
    - split; [done|]. rewrite length_fmap. lia.
    - split.
      + apply NoDup_app. split; [done|]. split; [|apply NoDup_singleton].
        intros k Hk ->%list_elem_of_singleton. done.
      + rewrite length_app, length_fmap. simpl. lia. }
  destruct (IH _ Hnd) as [IHnd IHlen]. split; [done|lia].
Qed.

(** X19: in the wrapped form, when every entry has a string ["name"], the
    loader returns a dict whose keys are distinct, with at most one key per
    entry, and in which each name is bound to the last entry of the list
    that carries it (a name no entry carries is not a key). *)
Theorem wrapped_last_entry_wins (m : gmap string json) (entries : list json) :
  m !! "benchmarks" = Some (JArr entries) →
  Forall (λ b, is_Some (entry_name b)) entries →
  ∃ d, load_benchmark_json (JObj m) = Ok (NewDict d)
       ∧ NoDup d.*1
       ∧ length d ≤ length entries
       ∧ ∀ s, dict_get (JStr s) d
              = last (filter (λ b, entry_name b = Some s) entries).
Proof.
  intros Hm Hall. exists (foldl store_entry [] entries).
  split; [|split; [|split]].
  - unfold load_benchmark_json. simpl.
    rewrite Hm. rewrite bool_decide_eq_true_2 by eauto. simpl.
    by rewrite comprehension_fold.
  - apply store_entries_keys. constructor.
  - destruct (store_entries_keys entries []) as [_ Hlen]; [constructor|].
    simpl in Hlen. lia.
  - intros s. rewrite store_entries_get. simpl.
    by destruct (last (filter _ entries)).
Qed.

Lemma wrapped_last_entry_wins_witness :
  let m : gmap string json :=
    {[ "benchmarks" := JArr [Demo.first_x; Demo.second_x] ]} in
  ∃ d, load_benchmark_json (JObj m) = Ok (NewDict d)
       ∧ length d ≤ 2
       ∧ dict_get (JStr "x") d = Some Demo.second_x.
Proof.
  intros m.
  assert (m !! "benchmarks" = Some (JArr [Demo.first_x; Demo.second_x])) as Hm
    by reflexivity.
  assert (Forall (λ b, is_Some (entry_name b)) [Demo.first_x; Demo.second_x])
    as Hall by (repeat constructor; by eexists).
  destruct (wrapped_last_entry_wins m _ Hm Hall) as (d & Hd & _ & Hlen & Hget).
  exists d. split; [exact Hd|]. split; [exact Hlen|].
  rewrite Hget. reflexivity.
Defined.

(** X20: a flat file cannot hold a benchmark that is itself called
    "benchmarks": the loader takes its record for the list of the wrapped
    form, iterates over the record's field names and raises [TypeError]; if
    that record is empty, it returns an empty dict and every other benchmark
    of the file is dropped. *)
Theorem benchmark_named_benchmarks (m r : gmap string json) :
  m !! "benchmarks" = Some (JObj r) →
  (r ≠ ∅ → load_benchmark_json (JObj m) = Raise TypeError)
  ∧ (r = ∅ → load_benchmark_json (JObj m) = Ok (NewDict [])).
Proof.
  intros Hm. unfold load_benchmark_json. simpl.
  rewrite Hm. rewrite bool_decide_eq_true_2 by eauto. simpl. split.
  - intros Hne. destruct (map_to_list r) as [|[k v] kvs] eqn:Hlist.
    + by apply map_to_list_empty_iff in Hlist.
    + done.
  - intros ->. by rewrite map_to_list_empty.
Qed.

Lemma benchmark_named_benchmarks_witness :
  Demo.flat_with_benchmarks !! "benchmarks"
  = Some (JObj {[ "cpu_time" := JNum 5 ]})
  ∧ load_benchmark_json (JObj Demo.flat_with_benchmarks) = Raise TypeError.
Proof.
  assert (Demo.flat_with_benchmarks !! "benchmarks"
          = Some (JObj {[ "cpu_time" := JNum 5 ]})) as Hm by reflexivity.
  split; [exact Hm|].
  apply (benchmark_named_benchmarks _ _ Hm).
  intros Hempty.
  apply (f_equal (λ r : gmap string json, r !! "cpu_time")) in Hempty.
  discriminate Hempty.
Defined.

End wrapped.

(** ** The command line *)

Lemma print_summary_of_compare baseline current threshold l :
  compare_benchmarks baseline current threshold = Ok l →
  ∃ out, Console.print_summary l = (out, Ok ()).
Proof.
  intros Hl. destruct (print_each_outcome l) as (Hok & _ & _).
  assert ((Console.print_each l).2 = Ok ()) as Hcomplete.
  { apply Hok, Forall_forall. intros c Hc.
    eapply produced_printable. by eapply compare_benchmarks_produced. }
  unfold Console.print_summary.
  destruct (Console.print_each l) as [out r]; simpl in *. subst r. eauto.
Qed.

Section run.
Context (args : Cli.Args) (baseline current : Benchmarks)
  (l : list BenchmarkComparison).
Hypothesis Hl : compare_benchmarks baseline current (Cli.threshold args) = Ok l.

Lemma run_exit :
  Cli.exit (Cli.run args baseline current)
  = Cli.Exit (if (check_regression l (Cli.threshold args)).1
                 && Cli.fail_on_regression args then 1 else 0).
Proof using Hl.
  unfold Cli.run. rewrite Hl.
  destruct (print_summary_of_compare _ _ _ _ Hl) as [out ->].
  by destruct (Cli.quiet args).
Qed.

Lemma run_written :
  Cli.written (Cli.run args baseline current)
  = match Cli.report_path args with
    | Some path =>
        [(path, generate_markdown_report l (Cli.baseline args) (Cli.current args))]
    | None => []
    end.
Proof using Hl.
  unfold Cli.run. rewrite Hl.
  destruct (print_summary_of_compare _ _ _ _ Hl) as [out ->].
  by destruct (Cli.quiet args).
Qed.

Lemma run_stderr : Cli.stderr (Cli.run args baseline current) = [].
Proof using Hl.
  unfold Cli.run. rewrite Hl.
  destruct (print_summary_of_compare _ _ _ _ Hl) as [out ->].
  by destruct (Cli.quiet args).
Qed.

Lemma run_stdout_quiet :
  Cli.quiet args = true → Cli.stdout (Cli.run args baseline current) = [].
Proof using Hl.
  intros Hq. unfold Cli.run. rewrite Hl, Hq. simpl.
  by destruct (Cli.report_path args).
Qed.

End run.

Lemma run_Raise args baseline current e :
  compare_benchmarks baseline current (Cli.threshold args) = Raise e →
  Cli.run args baseline current = Cli.crashed [] e.
Proof. intros He. unfold Cli.run. by rewrite He. Qed.

Lemma main_exit (load : string → Cli.load_result) (args : Cli.Args) :
  Cli.exit (Cli.main load args)
  = match load (Cli.baseline args) with
    | Cli.FileNotFoundError _ | Cli.JSONDecodeError _ => Cli.Exit 1
    | Cli.OtherError e => Cli.Uncaught e
    | Cli.Loaded b =>
        match load (Cli.current args) with
        | Cli.FileNotFoundError _ | Cli.JSONDecodeError _ => Cli.Exit 1
        | Cli.OtherError e => Cli.Uncaught e
        | Cli.Loaded c =>
            match compare_benchmarks b c (Cli.threshold args) with
            | Ok l =>
                Cli.Exit (if (check_regression l (Cli.threshold args)).1
                             && Cli.fail_on_regression args then 1 else 0)
            | Raise e => Cli.Uncaught e
            end
        end
    end.
Proof.
  unfold Cli.main.
  destruct (load (Cli.baseline args)) as [b| | |]; try done.
  destruct (load (Cli.current args)) as [c| | |]; try done.
  destruct (compare_benchmarks b c (Cli.threshold args)) as [l|e] eqn:Hl.
  - by rewrite (run_exit _ _ _ _ Hl).
  - by rewrite (run_Raise _ _ _ _ Hl).
Qed.

Lemma main_exit_status_sample :
  Cli.exit (Cli.main Demo.load (Demo.args true false)) = Cli.Exit 1
  ∧ Cli.exit (Cli.main Demo.load (Demo.args false false)) = Cli.Exit 0
  ∧ Cli.exit (Cli.main Demo.load
                (Cli.with_quiet true (Demo.args true false))) = Cli.Exit 1.
Proof. repeat split; by vm_compute. Qed.

(** X22: when both files load, the comparator returns and the run ends by
    [sys.exit], the report file is written exactly when a non-empty report
    path was given, and it holds the markdown report of the comparisons
    under the two file names as they were typed; the verdict, the fail flag
    and the quiet flag play no part, so the report of a run that exits with
    1 is on disk. *)
Theorem main_writes_report (load : string → Cli.load_result) (args : Cli.Args)
    (b c : Benchmarks) (l : list BenchmarkComparison) (n : nat) :
  load (Cli.baseline args) = Cli.Loaded b →
  load (Cli.current args) = Cli.Loaded c →
  compare_benchmarks b c (Cli.threshold args) = Ok l →
  Cli.exit (Cli.main load args) = Cli.Exit n →
  Cli.written (Cli.main load args)
  = match Cli.report args with
    | Some path =>
        if String.eqb path "" then []
        else [(path, generate_markdown_report l
                       (Cli.baseline args) (Cli.current args))]
    | None => []
    end.
Proof.
  intros Hb Hc Hl _. unfold Cli.main. rewrite Hb, Hc.
  rewrite (run_written _ _ _ _ Hl). unfold Cli.report_path.
  destruct (Cli.report args) as [path|]; [|done].
  by destruct (String.eqb path "").
Qed.

Lemma main_writes_report_witness :
  compare_benchmarks Sample.baseline Sample.current (1 # 10)
    = Ok Sample.comparisons
  ∧ Cli.exit (Cli.main Demo.load (Demo.args true true)) = Cli.Exit 1
  ∧ Cli.written (Cli.main Demo.load (Demo.args true true))
    = [("report.md",
        generate_markdown_report Sample.comparisons "old.json" "new.json")].
Proof.
  assert (compare_benchmarks Sample.baseline Sample.current (1 # 10)
          = Ok Sample.comparisons) as Hl by (vm_compute; reflexivity).
  assert (Cli.exit (Cli.main Demo.load (Demo.args true true)) = Cli.Exit 1)
    as Hexit by (vm_compute; reflexivity).
  split; [exact Hl|]. split; [exact Hexit|].
  exact (main_writes_report Demo.load (Demo.args true true) _ _ _ 1
           eq_refl eq_refl Hl Hexit).
Defined.

(** X23: with the quiet flag nothing is printed on the standard output,
    whatever happens; and when the run without the flag ends by [sys.exit],
    the run with it ends with the same status, the same texts on the error
    stream and the same files written. *)
Theorem main_quiet_only_silences (load : string → Cli.load_result)
    (args : Cli.Args) :
  Cli.stdout (Cli.main load (Cli.with_quiet true args)) = []
  ∧ (∀ n, Cli.exit (Cli.main load (Cli.with_quiet false args)) = Cli.Exit n →
       Cli.exit (Cli.main load (Cli.with_quiet true args)) = Cli.Exit n
       ∧ Cli.stderr (Cli.main load (Cli.with_quiet true args))
         = Cli.stderr (Cli.main load (Cli.with_quiet false args))
       ∧ Cli.written (Cli.main load (Cli.with_quiet true args))
         = Cli.written (Cli.main load (Cli.with_quiet false args))).
Proof.
  unfold Cli.main. cbn [Cli.with_quiet Cli.baseline Cli.current].
  destruct (load (Cli.baseline args)) as [b| | |]; try done.
  destruct (load (Cli.current args)) as [c| | |]; try done.
  destruct (compare_benchmarks b c (Cli.threshold args)) as [l|e] eqn:Hl.
  - assert (∀ q, compare_benchmarks b c (Cli.threshold (Cli.with_quiet q args))
                 = Ok l) as Hq by done.
    rewrite (run_stdout_quiet _ _ _ _ (Hq true)) by done.
    rewrite !(run_exit _ _ _ _ (Hq _)), !(run_stderr _ _ _ _ (Hq _)),
      !(run_written _ _ _ _ (Hq _)).
    done.
  - assert (∀ q, compare_benchmarks b c (Cli.threshold (Cli.with_quiet q args))
                 = Raise e) as Hq by done.
    by rewrite !(run_Raise _ _ _ _ (Hq _)).
Qed.

(** X24: the fail flag decides the exit status and nothing else: what is
    printed and what is written do not depend on it, and the two runs end
    alike unless the one with the flag exits with 1 where the one without
    it exits with 0. *)
Theorem main_fail_flag_only_exit (load : string → Cli.load_result)
    (args : Cli.Args) :
  Cli.stdout (Cli.main load (Cli.with_fail true args))
  = Cli.stdout (Cli.main load (Cli.with_fail false args))
  ∧ Cli.stderr (Cli.main load (Cli.with_fail true args))
    = Cli.stderr (Cli.main load (Cli.with_fail false args))
  ∧ Cli.written (Cli.main load (Cli.with_fail true args))
    = Cli.written (Cli.main load (Cli.with_fail false args))
  ∧ (Cli.exit (Cli.main load (Cli.with_fail true args))
     = Cli.exit (Cli.main load (Cli.with_fail false args))
     ∨ Cli.exit (Cli.main load (Cli.with_fail true args)) = Cli.Exit 1
       ∧ Cli.exit (Cli.main load (Cli.with_fail false args)) = Cli.Exit 0).
Proof.
  split; [|split; [|split]].
  4:{ rewrite !main_exit.
      cbn [Cli.with_fail Cli.baseline Cli.current Cli.threshold
           Cli.fail_on_regression].
      destruct (load (Cli.baseline args)) as [b| | |]; try (by left).
      destruct (load (Cli.current args)) as [c| | |]; try (by left).
      destruct (compare_benchmarks b c (Cli.threshold args)) as [l|e];
        [|by left].
      destruct (check_regression l (Cli.threshold args)).1; cbn [andb];
        [by right|by left]. }
  all: unfold Cli.main; cbn [Cli.with_fail Cli.baseline Cli.current];
    destruct (load (Cli.baseline args)) as [b| | |]; try done;
    destruct (load (Cli.current args)) as [c| | |]; try done;
    unfold Cli.run, Cli.report_path;
    cbn [Cli.with_fail Cli.baseline Cli.current Cli.threshold Cli.report
         Cli.fail_on_regression Cli.quiet];
    destruct (compare_benchmarks b c (Cli.threshold args)) as [l|e]; try done;
    destruct (if Cli.quiet args then _ else _) as [summary [[]|e]]; done.
Qed.

(** X25: a record without [cpu_time] and [real_time] in either file stops
    the run with an exception nobody catches, before anything is printed on
    the standard output or written, whatever the flags. *)
Theorem main_missing_time_aborts (load : string → Cli.load_result)
    (args : Cli.Args) (b c : Benchmarks) (n : string) (r : Benchmark) :
  load (Cli.baseline args) = Cli.Loaded b →
  load (Cli.current args) = Cli.Loaded c →
  b !! n = Some r ∨ c !! n = Some r →
  r !! "cpu_time" = None → r !! "real_time" = None →
  Cli.stdout (Cli.main load args) = []
  ∧ Cli.written (Cli.main load args) = []
  ∧ ∃ e, Cli.exit (Cli.main load args) = Cli.Uncaught e.
Proof.
  intros Hb Hc Hn Hcpu Hreal. unfold Cli.main. rewrite Hb, Hc.
  destruct (compare_benchmarks b c (Cli.threshold args)) as [l|e] eqn:Hl.
  - destruct (compare_benchmarks_Ok_timed _ _ _ _ n r Hl Hn) as [[? H]|[? H]];
      congruence.
  - rewrite (run_Raise _ _ _ _ Hl). simpl. eauto.
Qed.

Lemma main_missing_time_aborts_witness :
  let load path :=
    if String.eqb path "old.json" then Cli.Loaded Sample.baseline
    else Cli.Loaded Sample.untimed in
  Sample.untimed !! "bench_b" = Some (Sample.record "iterations" 10)
  ∧ Cli.stdout (Cli.main load (Demo.args false false)) = []
  ∧ Cli.written (Cli.main load (Demo.args false false)) = []
  ∧ ∃ e, Cli.exit (Cli.main load (Demo.args false false)) = Cli.Uncaught e.
Proof.
  intros load.
  assert (Sample.untimed !! "bench_b" = Some (Sample.record "iterations" 10))
    as Hn by reflexivity.
  split; [exact Hn|].
  exact (main_missing_time_aborts load (Demo.args false false)
           Sample.baseline Sample.untimed "bench_b" _
           eq_refl eq_refl (or_intror Hn) eq_refl eq_refl).
Defined.
